(** * JWT cookie authentication: auth.py, crud.py and the login route of main.py

    A shallow embedding of the authentication core of the application:
    token issuance ([create_access_token]), the cookie gate
    ([get_current_user]) and the credential check ([authenticate_user]).

    The JWT codec (PyJWT), the password hasher (passlib's CryptContext) and
    the table constraints of the User model are collaborators that live
    outside these sources; they enter as interfaces, with the part of their
    contract the proofs rely on stated as laws.  A small reference codec and
    hasher at the end of the definitions show that the laws can be met and
    let the functions be evaluated on concrete requests. *)

From Stdlib Require Import ZArith String Ascii List Lia.
From Stdlib Require Import DecimalString DecimalPos.
From stdpp Require Import base option countable gmap strings list fin_maps.

Local Open Scope string_scope.
Local Open Scope Z_scope.

(** ** Python values, exceptions and results *)

(** Instants and durations are counted in whole seconds, the resolution of
    the [exp] claim of a token (a JWT NumericDate).  A naive UTC [datetime]
    is its number of seconds since the epoch, a [timedelta] its length in
    seconds. *)
Abbreviation datetime := Z (only parsing).
Abbreviation timedelta := Z (only parsing).

(** The values a claims dictionary holds on either side of the codec. *)
Inductive pyval : Type :=
| VNone
| VStr (s : string)
| VInt (n : Z)
| VDatetime (t : datetime).

Abbreviation dict := (gmap string pyval) (only parsing).

(** Subclasses of [jwt.PyJWTError] that the codec raises. *)
Inductive jwt_error : Type :=
| DecodeError
| InvalidSignatureError
| InvalidAlgorithmError
| ExpiredSignatureError.

Inductive exn : Type :=
| HTTPException (status_code : Z) (detail : string)
                (headers : list (string * string))
| IndexError
| OverflowError
| TypeError
| NotImplementedError
| IntegrityError
| PyJWTError (e : jwt_error).

Inductive result (A : Type) : Type :=
| Ok (a : A)
| Raise (e : exn).

Arguments Ok {A} a.
Arguments Raise {A} e.

Definition bind {A B : Type} (r : result A) (k : A -> result B) : result B :=
  match r with
  | Ok a => k a
  | Raise e => Raise e
  end.

Notation "'let*' x := r 'in' k" := (bind r (fun x => k))
  (at level 10, x name, r at level 100, k at level 200).

(** [try: body except jwt.PyJWTError: raise h].  Every other exception,
    an [HTTPException] raised inside the body included, passes through. *)
Definition except_PyJWTError {A : Type} (body : result A) (h : exn) : result A :=
  match body with
  | Raise (PyJWTError _) => Raise h
  | other => other
  end.

#[global] Instance pyval_eq_dec : EqDecision pyval.
Proof. solve_decision. Defined.

#[global] Instance jwt_error_eq_dec : EqDecision jwt_error.
Proof. solve_decision. Defined.

#[global] Instance exn_eq_dec : EqDecision exn.
Proof. solve_decision. Defined.

(** ** datetime and timedelta *)

(** [datetime.min] is 0001-01-01T00:00:00 and [datetime.max] the last second
    of year 9999. *)
Definition datetime_min : datetime := -62135596800.
Definition datetime_max : datetime := 253402300799.

(** [datetime + timedelta]: OverflowError outside the representable years. *)
Definition datetime_add (t : datetime) (d : timedelta) : result datetime :=
  if (datetime_min <=? t + d) && (t + d <=? datetime_max)
  then Ok (t + d) else Raise OverflowError.

Definition timedelta_minutes (m : Z) : timedelta := 60 * m.

(** Truth value of a [timedelta]: false exactly for the zero duration. *)
Definition timedelta_bool (d : timedelta) : bool := negb (d =? 0).

(** ** str.split and indexing *)

(** [s.split(sep)] for a one-character separator: every occurrence cuts,
    and the result always has at least one element. *)
Fixpoint split (sep : ascii) (s : string) : list string :=
  match s with
  | EmptyString => [EmptyString]
  | String c r =>
      if Ascii.eqb c sep then EmptyString :: split sep r
      else match split sep r with
           | w :: ws => String c w :: ws
           | [] => [String c EmptyString]
           end
  end.

(** [l[i]] for a non-negative index: IndexError past the end. *)
Definition getitem {A : Type} (l : list A) (i : nat) : result A :=
  match l !! i with
  | Some x => Ok x
  | None => Raise IndexError
  end.

Fixpoint no_space (s : string) : bool :=
  match s with
  | EmptyString => true
  | String c r => negb (Ascii.eqb c " ") && no_space r
  end.

(** ** Collaborators outside the sources *)

(** [jwt.encode(payload, key, algorithm)] and
    [jwt.decode(token, key, algorithms)].  The decoder reads the clock to
    check [exp]; the instant it reads is its last argument. *)
Class JwtCodec : Type := {
  jwt_encode : gmap string pyval -> string -> string -> result string;
  jwt_decode : string -> string -> list string -> datetime -> result (gmap string pyval);
}.

(** [pwd_context.hash] draws a fresh salt at every call, so the salt is an
    argument here; [pwd_context.verify(plaintext, hash)]. *)
Class PasswordHasher : Type := {
  pwd_hash : string -> string -> string;
  pwd_verify : string -> string -> bool;
}.

(** The module globals of auth.py.  [SECRET_KEY] is imported from config
    and then rebound to a literal (line 13); see [auth_settings]. *)
Class Settings : Type := { SECRET_KEY : string }.

Definition ALGORITHM : string := "HS256".

(** ** crud.py *)

(** The columns of models.User that the sources read and write. *)
Module models.
Record User : Type := mkUser {
  username : string;
  email : string;
  password : string;
}.
End models.
Export models.

#[global] Instance User_eq_dec : EqDecision User.
Proof. solve_decision. Defined.

(** The rows of the users table, oldest first. *)
Abbreviation Session := (list User) (only parsing).

(** [User.email == v]: a bound value that is not a string equals no stored
    email. *)
Definition email_matches (v : pyval) (u : User) : bool :=
  match v with
  | VStr s => String.eqb (email u) s
  | _ => false
  end.

(** [select(User).filter(User.email == email)] then [.scalars().first()]. *)
Definition get_user_by_email (db : Session) (email : pyval) : option User :=
  List.find (email_matches email) db.

Section Crud.
Context {H : PasswordHasher}.

(** The constraints that models.User declares on the table are not among
    the sources: [commit_ok db u] tells whether inserting [u] into [db]
    passes them.  A violation surfaces at [db.commit()]. *)
Variable commit_ok : Session -> User -> bool.

Definition create_user (db : Session) (username email password salt : string)
  : result (Session * User) :=
  let hashed_password := pwd_hash salt password in
  let user := mkUser username email hashed_password in
  if commit_ok db user then Ok ((db ++ [user])%list, user)
  else Raise IntegrityError.

Definition authenticate_user (db : Session) (email password : string)
  : option User :=
  match get_user_by_email db (VStr email) with
  | Some user =>
      if pwd_verify password (models.password user) then Some user else None
  | None => None
  end.
End Crud.

(** ** auth.py *)

Record Request : Type := { cookies : gmap string string }.

Definition HTTP_401_UNAUTHORIZED : Z := 401.

Definition credentials_exception : exn :=
  HTTPException HTTP_401_UNAUTHORIZED "Could not validate credentials"
                [("WWW-Authenticate", "Bearer")].

Section Auth.
Context {J : JwtCodec} {S : Settings}.

(** Lines 17 to 22: the claims handed to the codec.  [utcnow] is the value
    [datetime.utcnow()] returns during the call. *)
Definition to_encode (data : gmap string pyval) (expires_delta : option timedelta)
           (utcnow : datetime) : result (gmap string pyval) :=
  let* expire :=
    match expires_delta with
    | Some d => if timedelta_bool d then datetime_add utcnow d
                else datetime_add utcnow (timedelta_minutes 15)
    | None => datetime_add utcnow (timedelta_minutes 15)
    end in
  Ok (<["exp" := VDatetime expire]> data).

Definition create_access_token (data : gmap string pyval)
           (expires_delta : option timedelta) (utcnow : datetime)
  : result string :=
  let* claims := to_encode data expires_delta utcnow in
  jwt_encode claims SECRET_KEY ALGORITHM.

(** Lines 38 to 45: the try block with its handler. *)
Definition decode_subject (token : string) (now : datetime) : result pyval :=
  except_PyJWTError
    (let* token := getitem (split " " token) 1 in
     let* payload := jwt_decode token SECRET_KEY [ALGORITHM] now in
     match payload !! "sub" with
     | None | Some VNone => Raise credentials_exception
     | Some email => Ok email
     end)
    credentials_exception.

Definition get_current_user (request : Request) (db : Session)
           (now : datetime) : result User :=
  match cookies request !! "access_token" with
  | None | Some EmptyString =>
      Raise (HTTPException HTTP_401_UNAUTHORIZED "Not authenticated"
                           [("WWW-Authenticate", "Bearer")])
  | Some token =>
      let* email := decode_subject token now in
      match get_user_by_email db email with
      | None => Raise credentials_exception
      | Some user => Ok user
      end
  end.
End Auth.

(** Line 13 of auth.py. *)
#[global] Instance auth_settings : Settings := {| SECRET_KEY := "YOUR_SECRET_KEY" |}.

(** ** The login route of main.py *)

Section Login.
Context {J : JwtCodec} {H : PasswordHasher} {S : Settings}.

(** The value the route stores in the [access_token] cookie. *)
Definition login (db : Session) (email password : string) (utcnow : datetime)
  : result string :=
  match authenticate_user db email password with
  | None =>
      Raise (HTTPException HTTP_401_UNAUTHORIZED "Incorrect email or password" [])
  | Some user =>
      let* access_token :=
        create_access_token {[ "sub" := VStr (models.email user) ]} None utcnow in
      Ok ("Bearer " +:+ access_token)
  end.
End Login.

(** ** What the proofs rely on from the collaborators *)

(** Claims the codec validates on its own when they are present. *)
Definition registered_claims : list string := ["exp"; "nbf"; "iat"; "aud"; "iss"].

Definition is_str (v : pyval) : bool :=
  match v with
  | VStr _ => true
  | _ => false
  end.

(** Private claims with string values, such as [sub]. *)
Definition plain_claims (m : gmap string pyval) : Prop :=
  map_Forall (fun k v => (k ∉ registered_claims) /\ is_str v = true) m.

(** The contract of the codec for a payload whose [exp] is a datetime and
    whose other claims are plain: encoding succeeds and gives a token
    without blanks; decoding it under the same key and algorithm gives the
    payload back with [exp] as a number while the clock is before [exp],
    and ExpiredSignatureError once the clock is past it.  The law leaves
    the instant [exp] itself open.  Whatever the token, the decoder raises
    nothing but subclasses of PyJWTError. *)
Class JwtLaws (J : JwtCodec) : Prop := {
  jwt_encode_ok :
    forall (p : gmap string pyval) (key : string) (e : datetime),
      p !! "exp" = Some (VDatetime e) -> plain_claims (delete "exp" p) ->
      exists t, jwt_encode p key ALGORITHM = Ok t /\ no_space t = true;
  jwt_decode_fresh :
    forall (p : gmap string pyval) (key t : string) (e now : datetime),
      p !! "exp" = Some (VDatetime e) -> plain_claims (delete "exp" p) ->
      jwt_encode p key ALGORITHM = Ok t -> now < e ->
      jwt_decode t key [ALGORITHM] now = Ok (<["exp" := VInt e]> p);
  jwt_decode_expired :
    forall (p : gmap string pyval) (key t : string) (e now : datetime),
      p !! "exp" = Some (VDatetime e) -> plain_claims (delete "exp" p) ->
      jwt_encode p key ALGORITHM = Ok t -> e < now ->
      jwt_decode t key [ALGORITHM] now = Raise (PyJWTError ExpiredSignatureError);
  jwt_decode_raises :
    forall (t key : string) (algorithms : list string) (now : datetime) (x : exn),
      jwt_decode t key algorithms now = Raise x -> exists e, x = PyJWTError e;
}.

(** The contract of the hasher: a password verifies against its own hash.
    Nothing is assumed of the other passwords: bcrypt reads only the first
    72 bytes of a password, so two passwords that agree on them verify
    against the same hashes. *)
Class PasswordHasherLaws (H : PasswordHasher) : Prop := {
  pwd_verify_hash : forall salt p, pwd_verify p (pwd_hash salt p) = true;
}.

(** ** A reference codec and hasher *)

(** Values are written as the decimal digits of their code, so a written
    value holds no blank and no other character than a digit. *)
Definition digits_of_pos (p : positive) : string :=
  NilEmpty.string_of_uint (Pos.to_uint p).

Definition pos_of_digits (s : string) : option positive :=
  match NilEmpty.uint_of_string s with
  | Some d => match Pos.of_uint d with
              | Npos p => Some p
              | N0 => None
              end
  | None => None
  end.

Definition pickle {A : Type} `{Countable A} (a : A) : string :=
  digits_of_pos (encode a).

Definition unpickle {A : Type} `{Countable A} (s : string) : option A :=
  match pos_of_digits s with
  | Some p => decode p
  | None => None
  end.

Definition pyval_to_sum (v : pyval) : unit + (string + (Z + Z)) :=
  match v with
  | VNone => inl tt
  | VStr s => inr (inl s)
  | VInt n => inr (inr (inl n))
  | VDatetime t => inr (inr (inr t))
  end.

Definition pyval_of_sum (x : unit + (string + (Z + Z))) : pyval :=
  match x with
  | inl _ => VNone
  | inr (inl s) => VStr s
  | inr (inr (inl n)) => VInt n
  | inr (inr (inr t)) => VDatetime t
  end.

#[global] Instance pyval_countable : Countable pyval.
Proof.
  refine (inj_countable' pyval_to_sum pyval_of_sum _).
  intros v. destruct v; reflexivity.
Defined.

(** A datetime under a time claim becomes its number of seconds. *)
Definition numeric_date (k : string) (p : gmap string pyval) : gmap string pyval :=
  match p !! k with
  | Some (VDatetime t) => <[k := VInt t]> p
  | _ => p
  end.

Definition is_datetime (v : pyval) : bool :=
  match v with
  | VDatetime _ => true
  | _ => false
  end.

Definition ref_encode (payload : gmap string pyval) (key algorithm : string)
  : result string :=
  let claims := numeric_date "nbf" (numeric_date "iat" (numeric_date "exp" payload)) in
  if negb (String.eqb algorithm ALGORITHM) then Raise NotImplementedError
  else if bool_decide (map_Forall (fun _ v => is_datetime v = false) claims)
       then Ok (pickle (key, claims))
       else Raise TypeError.

Definition ref_decode (token key : string) (algorithms : list string)
           (now : datetime) : result (gmap string pyval) :=
  match unpickle (A := string * gmap string pyval) token with
  | None => Raise (PyJWTError DecodeError)
  | Some (signed_with, claims) =>
      if negb (bool_decide (ALGORITHM ∈ algorithms))
      then Raise (PyJWTError InvalidAlgorithmError)
      else if negb (String.eqb signed_with key)
      then Raise (PyJWTError InvalidSignatureError)
      else match claims !! "exp" with
           | None => Ok claims
           | Some (VInt e) =>
               if e <=? now then Raise (PyJWTError ExpiredSignatureError)
               else Ok claims
           | Some _ => Raise (PyJWTError DecodeError)
           end
  end.

Definition ref_codec : JwtCodec :=
  {| jwt_encode := ref_encode; jwt_decode := ref_decode |}.

(** Like bcrypt, the reference hasher reads the first 72 bytes of a
    password and no more. *)
Definition bcrypt_input (plaintext : string) : string :=
  String.substring 0 72 plaintext.

Definition ref_hash (salt plaintext : string) : string :=
  pickle (salt, bcrypt_input plaintext).

Definition ref_verify (plaintext hash : string) : bool :=
  match unpickle (A := string * string) hash with
  | Some (_, p) => String.eqb p (bcrypt_input plaintext)
  | None => false
  end.

Definition ref_hasher : PasswordHasher :=
  {| pwd_hash := ref_hash; pwd_verify := ref_verify |}.

(** Modelled from the spec: models.py is not among the sources, and the
    spec's data model makes the email the unique key of the user store.
    This is the constraint check of a table keyed by email. *)
Definition unique_email (db : Session) (u : User) : bool :=
  match get_user_by_email db (VStr (email u)) with
  | None => true
  | Some _ => false
  end.

(** ** Requests *)

(** A request whose only cookie is [access_token]. *)
Definition cookie_request (token : string) : Request :=
  {| cookies := {[ "access_token" := token ]} |}.

(** A request without cookies. *)
Definition bare_request : Request := {| cookies := ∅ |}.

Definition not_authenticated : exn :=
  HTTPException 401 "Not authenticated" [("WWW-Authenticate", "Bearer")].

(** ** The clock in microseconds *)

(** The definitions above count time in whole seconds.  A [datetime] and a
    [timedelta] have a resolution of one microsecond, and the codec writes
    the [exp] datetime as its whole seconds.  This module states issuance
    and the contract of the codec with the clock in microseconds, for the
    lifetimes and the instants that are not whole seconds.  The gate is the
    one above: it hands the instant to the codec as it is. *)
Module micro.

Definition second : Z := 1000000.

(** [calendar.timegm(t.utctimetuple())]: the whole seconds of [t]. *)
Definition timegm (t : datetime) : Z := t / second.

Definition datetime_min : datetime := -62135596800 * second.
Definition datetime_max : datetime := 253402300799 * second + 999999.

Definition datetime_add (t : datetime) (d : timedelta) : result datetime :=
  if (datetime_min <=? t + d) && (t + d <=? datetime_max)
  then Ok (t + d) else Raise OverflowError.

Definition timedelta_minutes (m : Z) : timedelta := 60 * second * m.

Section Auth.
Context {J : JwtCodec} {S : Settings}.

Definition to_encode (data : gmap string pyval) (expires_delta : option timedelta)
           (utcnow : datetime) : result (gmap string pyval) :=
  let* expire :=
    match expires_delta with
    | Some d => if timedelta_bool d then datetime_add utcnow d
                else datetime_add utcnow (timedelta_minutes 15)
    | None => datetime_add utcnow (timedelta_minutes 15)
    end in
  Ok (<["exp" := VDatetime expire]> data).

Definition create_access_token (data : gmap string pyval)
           (expires_delta : option timedelta) (utcnow : datetime)
  : result string :=
  let* claims := to_encode data expires_delta utcnow in
  jwt_encode claims SECRET_KEY ALGORITHM.
End Auth.

(** The contract of the codec under a non-empty key, for a payload whose
    [exp] is a datetime and whose other claims are plain: the token holds
    no blank; its [exp] claim is the whole seconds of the datetime; it is
    decoded while the clock is before that second and refused with
    ExpiredSignatureError from that second on. *)
Class JwtLaws (J : JwtCodec) : Prop := {
  encode_ok :
    forall (p : gmap string pyval) (key : string) (e : datetime),
      key <> "" ->
      p !! "exp" = Some (VDatetime e) -> plain_claims (delete "exp" p) ->
      exists t, jwt_encode p key ALGORITHM = Ok t /\ no_space t = true;
  decode_before_exp :
    forall (p : gmap string pyval) (key t : string) (e now : datetime),
      key <> "" ->
      p !! "exp" = Some (VDatetime e) -> plain_claims (delete "exp" p) ->
      jwt_encode p key ALGORITHM = Ok t -> now < timegm e * second ->
      jwt_decode t key [ALGORITHM] now = Ok (<["exp" := VInt (timegm e)]> p);
  decode_from_exp :
    forall (p : gmap string pyval) (key t : string) (e now : datetime),
      key <> "" ->
      p !! "exp" = Some (VDatetime e) -> plain_claims (delete "exp" p) ->
      jwt_encode p key ALGORITHM = Ok t -> timegm e * second <= now ->
      jwt_decode t key [ALGORITHM] now = Raise (PyJWTError ExpiredSignatureError);
}.

(** The reference codec with the clock in microseconds. *)
Definition numeric_date (k : string) (p : gmap string pyval) : gmap string pyval :=
  match p !! k with
  | Some (VDatetime t) => <[k := VInt (timegm t)]> p
  | _ => p
  end.

Definition ref_encode (payload : gmap string pyval) (key algorithm : string)
  : result string :=
  let claims := numeric_date "nbf" (numeric_date "iat" (numeric_date "exp" payload)) in
  if negb (String.eqb algorithm ALGORITHM) then Raise NotImplementedError
  else if bool_decide (map_Forall (fun _ v => is_datetime v = false) claims)
       then Ok (pickle (key, claims))
       else Raise TypeError.

Definition ref_decode (token key : string) (algorithms : list string)
           (now : datetime) : result (gmap string pyval) :=
  match unpickle (A := string * gmap string pyval) token with
  | None => Raise (PyJWTError DecodeError)
  | Some (signed_with, claims) =>
      if negb (bool_decide (ALGORITHM ∈ algorithms))
      then Raise (PyJWTError InvalidAlgorithmError)
      else if negb (String.eqb signed_with key)
      then Raise (PyJWTError InvalidSignatureError)
      else match claims !! "exp" with
           | None => Ok claims
           | Some (VInt e) =>
               if e * second <=? now then Raise (PyJWTError ExpiredSignatureError)
               else Ok claims
           | Some _ => Raise (PyJWTError DecodeError)
           end
  end.

Definition ref_codec : JwtCodec :=
  {| jwt_encode := ref_encode; jwt_decode := ref_decode |}.

End micro.

(** ** main.py *)

(** What a response asks the client to do with a cookie:
    [response.set_cookie(key, value, httponly)] and
    [response.delete_cookie(key)]. *)
Inductive cookie_op : Type :=
| SetCookie (key value : string) (httponly : bool)
| DeleteCookie (key : string).

(** The values the routes put in a template context. *)
Inductive context_value : Type :=
| CRequest (request : Request)
| CStr (s : string)
| CUser (user : User).

Inductive Response : Type :=
| RedirectResponse (url : string) (status_code : Z) (cookie_ops : list cookie_op)
| TemplateResponse (name : string) (context : gmap string context_value).

Definition HTTP_303_SEE_OTHER : Z := 303.

Module main.
Section Routes.
Context {J : JwtCodec} {H : PasswordHasher} {S : Settings}.
Variable commit_ok : Session -> User -> bool.

Definition register_page (request : Request) : Response :=
  TemplateResponse "register.html" {[ "request" := CRequest request ]}.


Definition login_page (request : Request) : Response :=
  TemplateResponse "login.html" {[ "request" := CRequest request ]}.

Definition login (request : Request) (email password : string) (db : Session)
           (utcnow : datetime) : result Response :=
  match authenticate_user db email password with
  | None =>
      Raise (HTTPException HTTP_401_UNAUTHORIZED "Incorrect email or password" [])
  | Some user =>
      let* access_token :=
        create_access_token {[ "sub" := VStr (models.email user) ]} None utcnow in
      Ok (RedirectResponse "/home" HTTP_303_SEE_OTHER
            [SetCookie "access_token" ("Bearer " +:+ access_token) true])
  end.

(** [user=Depends(get_current_user)]: the gate runs first and its
    exception, if any, is the outcome of the route. *)
Definition home_page (request : Request) (db : Session) (now : datetime)
  : result Response :=
  let* user := get_current_user request db now in
  Ok (TemplateResponse "home.html"
        (<["username" := CStr (models.username user)]>
           {[ "request" := CRequest request ]})).

Definition detail_page (request : Request) (db : Session) (now : datetime)
  : result Response :=
  let* user := get_current_user request db now in
  Ok (TemplateResponse "detail.html"
        (<["user" := CUser user]> {[ "request" := CRequest request ]})).

(** The response passed in is replaced at once (line 66). *)
Definition logout (response : Response) : Response :=
  RedirectResponse "/login" HTTP_303_SEE_OTHER [DeleteCookie "access_token"].
End Routes.
End main.

(** ** The client's cookies *)

Definition apply_cookie_op (jar : gmap string string) (op : cookie_op)
  : gmap string string :=
  match op with
  | SetCookie key value _ => <[key := value]> jar
  | DeleteCookie key => delete key jar
  end.

Definition cookie_ops_of (response : Response) : list cookie_op :=
  match response with
  | RedirectResponse _ _ ops => ops
  | TemplateResponse _ _ => []
  end.

(** The cookies a client holds after it received [response]. *)
Definition receive (jar : gmap string string) (response : Response)
  : gmap string string :=
  foldl apply_cookie_op jar (cookie_ops_of response).

(** The next request of a client that received [response]. *)
Definition next_request (jar : gmap string string) (response : Response) : Request :=
  {| cookies := receive jar response |}.

(** The lifetime a call of [create_access_token] grants. *)
Definition granted (expires_delta : option timedelta) : timedelta :=
  match expires_delta with
  | Some d => if timedelta_bool d then d else timedelta_minutes 15
  | None => timedelta_minutes 15
  end.

(** ** Sample requests for the reference codec *)

(** A token signed with the key of auth.py whose payload has no [sub]. *)
Definition token_without_sub : string :=
  pickle ("YOUR_SECRET_KEY", ({[ "exp" := VInt 2000 ]} : gmap string pyval)).

(** The store after bob registered. *)
Definition bob : User := mkUser "bob" "b@x.com" (ref_hash "salt" "pw1").

(** A store in which a record has the empty email. *)
Definition nameless : User := mkUser "nameless" "" (ref_hash "salt" "pw").

(** Two passwords of 73 bytes that differ in the last one only. *)
Definition long_password_1 : string :=
  "aaaaaaaaaaaaaaaaaaaaaaaaaaaaaaaaaaaaaaaaaaaaaaaaaaaaaaaaaaaaaaaaaaaaaaaa1".

Definition long_password_2 : string :=
  "aaaaaaaaaaaaaaaaaaaaaaaaaaaaaaaaaaaaaaaaaaaaaaaaaaaaaaaaaaaaaaaaaaaaaaaa2".

(** The token a login of bob at instant 1000 receives. *)
Definition bob_token : string :=
  pickle ("YOUR_SECRET_KEY",
          (<["exp" := VInt 1900]> {[ "sub" := VStr "b@x.com" ]} : gmap string pyval)).

Definition bob_login_response : Response :=
  RedirectResponse "/home" 303 [SetCookie "access_token" ("Bearer " +:+ bob_token) true].

(** * Proofs *)

(** ** Results and the handler *)

Lemma bind_Ok {A B : Type} (a : A) (k : A -> result B) : bind (Ok a) k = k a.
Proof. reflexivity. Qed.

Lemma bind_Raise {A B : Type} (e : exn) (k : A -> result B) :
  bind (Raise e) k = Raise e.
Proof. reflexivity. Qed.

Lemma except_PyJWTError_Ok {A : Type} (a : A) (h : exn) :
  except_PyJWTError (Ok a) h = Ok a.
Proof. reflexivity. Qed.

Lemma datetime_add_in_range (t : datetime) (d : timedelta) :
  datetime_min <= t + d <= datetime_max -> datetime_add t d = Ok (t + d).
Proof.
  intros [Hlo Hhi]. unfold datetime_add.
  apply Z.leb_le in Hlo. apply Z.leb_le in Hhi.
  rewrite Hlo, Hhi. reflexivity.
Qed.

(** ** str.split *)

Lemma split_nonempty (sep : ascii) (s : string) : split sep s <> [].
Proof.
  destruct s as [|c r]; simpl; [discriminate|].
  destruct (Ascii.eqb c sep); [discriminate|].
  destruct (split sep r); discriminate.
Qed.

Example split_bearer : split " " "Bearer abc" = ["Bearer"; "abc"].
Proof. reflexivity. Qed.

Example split_empty : split " " "" = [""].
Proof. reflexivity. Qed.

Example split_two_blanks : split " " "a  b" = ["a"; ""; "b"].
Proof. reflexivity. Qed.

(** A string without a blank is not cut. *)
Lemma split_no_space (s : string) : no_space s = true -> split " " s = [s].
Proof.
  induction s as [|c r IH]; simpl; [reflexivity|].
  intros Hns. apply andb_prop in Hns as [Hc Hr].
  apply negb_true_iff in Hc. rewrite Hc, (IH Hr). reflexivity.
Qed.

(** The first blank ends the first word, whatever the word is. *)
Lemma split_first_word (x r : string) :
  no_space x = true -> split " " (x +:+ String " " r) = x :: split " " r.
Proof.
  induction x as [|c x IH]; simpl; intros Hns; [reflexivity|].
  apply andb_prop in Hns as [Hc Hx].
  apply negb_true_iff in Hc. rewrite Hc, (IH Hx). reflexivity.
Qed.

Lemma getitem_1_no_space (s : string) :
  no_space s = true -> getitem (split " " s) 1 = Raise IndexError.
Proof. intros Hns. rewrite (split_no_space s Hns). reflexivity. Qed.

Lemma getitem_1_first_word (x r : string) :
  no_space x = true ->
  getitem (split " " (x +:+ String " " r)) 1 = getitem (split " " r) 0.
Proof. intros Hns. rewrite (split_first_word x r Hns). reflexivity. Qed.

Lemma getitem_1_prefixed (x t : string) :
  no_space x = true -> no_space t = true ->
  getitem (split " " (x +:+ String " " t)) 1 = Ok t.
Proof.
  intros Hx Ht. rewrite (getitem_1_first_word x t Hx), (split_no_space t Ht).
  reflexivity.
Qed.

(** ** The reference codec meets the contract *)

Lemma no_space_digits (d : Decimal.uint) :
  no_space (NilEmpty.string_of_uint d) = true.
Proof. induction d; simpl; auto. Qed.

Lemma pos_of_digits_of_pos (p : positive) : pos_of_digits (digits_of_pos p) = Some p.
Proof.
  unfold pos_of_digits, digits_of_pos.
  rewrite NilEmpty.usu, DecimalPos.Unsigned.of_to. reflexivity.
Qed.

Lemma unpickle_pickle {A : Type} `{Countable A} (a : A) : unpickle (pickle a) = Some a.
Proof.
  unfold unpickle, pickle. rewrite pos_of_digits_of_pos. apply decode_encode.
Qed.

Lemma no_space_pickle {A : Type} `{Countable A} (a : A) : no_space (pickle a) = true.
Proof. apply no_space_digits. Qed.

Lemma plain_claims_lookup (p : gmap string pyval) (k : string) (v : pyval) :
  plain_claims (delete "exp" p) -> k <> "exp" -> p !! k = Some v ->
  (k ∉ registered_claims) /\ is_str v = true.
Proof.
  intros Hplain Hk Hv. apply (Hplain k v).
  rewrite lookup_delete_ne; [exact Hv | congruence].
Qed.

Lemma plain_claims_unregistered (p : gmap string pyval) (k : string) :
  plain_claims (delete "exp" p) -> k <> "exp" -> k ∈ registered_claims ->
  p !! k = None.
Proof.
  intros Hplain Hk Hreg. destruct (p !! k) as [v|] eqn:Hv; [|reflexivity].
  destruct (plain_claims_lookup p k v Hplain Hk Hv) as [Hnot _]. contradiction.
Qed.

(** The claims the reference codec signs: only [exp] changes. *)
Lemma numeric_dates_plain (p : gmap string pyval) (e : datetime) :
  p !! "exp" = Some (VDatetime e) -> plain_claims (delete "exp" p) ->
  numeric_date "nbf" (numeric_date "iat" (numeric_date "exp" p))
  = <["exp" := VInt e]> p.
Proof.
  intros Hexp Hplain.
  assert (Hiat : p !! "iat" = None).
  { apply plain_claims_unregistered; [exact Hplain | discriminate |].
    unfold registered_claims. set_solver. }
  assert (Hnbf : p !! "nbf" = None).
  { apply plain_claims_unregistered; [exact Hplain | discriminate |].
    unfold registered_claims. set_solver. }
  unfold numeric_date at 3. rewrite Hexp.
  unfold numeric_date at 2. rewrite lookup_insert_ne by discriminate. rewrite Hiat.
  unfold numeric_date. rewrite lookup_insert_ne by discriminate. rewrite Hnbf.
  reflexivity.
Qed.

Lemma signed_claims_serialisable (p : gmap string pyval) (e : datetime) :
  plain_claims (delete "exp" p) ->
  map_Forall (fun _ v => is_datetime v = false) (<["exp" := VInt e]> p).
Proof.
  intros Hplain k v Hv.
  destruct (decide (k = "exp")) as [->|Hk].
  - rewrite lookup_insert_eq in Hv. injection Hv as <-. reflexivity.
  - rewrite lookup_insert_ne in Hv by congruence.
    destruct (plain_claims_lookup p k v Hplain Hk Hv) as [_ Hstr].
    destruct v; simpl in *; congruence.
Qed.

Lemma ref_encode_plain (p : gmap string pyval) (key : string) (e : datetime) :
  p !! "exp" = Some (VDatetime e) -> plain_claims (delete "exp" p) ->
  ref_encode p key ALGORITHM = Ok (pickle (key, <["exp" := VInt e]> p)).
Proof.
  intros Hexp Hplain. unfold ref_encode.
  rewrite (numeric_dates_plain p e Hexp Hplain).
  rewrite String.eqb_refl. simpl.
  rewrite bool_decide_eq_true_2; [reflexivity|].
  apply signed_claims_serialisable, Hplain.
Qed.

Lemma ref_decode_pickle (key : string) (claims : gmap string pyval)
      (e now : datetime) :
  claims !! "exp" = Some (VInt e) ->
  ref_decode (pickle (key, claims)) key [ALGORITHM] now
  = if e <=? now then Raise (PyJWTError ExpiredSignatureError) else Ok claims.
Proof.
  intros Hexp. unfold ref_decode. rewrite unpickle_pickle.
  rewrite bool_decide_eq_true_2 by (apply list_elem_of_here).
  rewrite String.eqb_refl. simpl. rewrite Hexp. reflexivity.
Qed.

Lemma ref_codec_laws : JwtLaws ref_codec.
Proof.
  split; simpl.
  - intros p key e Hexp Hplain. eexists. split.
    + apply ref_encode_plain; eassumption.
    + apply no_space_pickle.
  - intros p key t e now Hexp Hplain Henc Hlt.
    rewrite (ref_encode_plain p key e Hexp Hplain) in Henc. injection Henc as <-.
    rewrite (ref_decode_pickle key _ e now) by apply lookup_insert_eq.
    destruct (Z.leb_spec e now); [lia | reflexivity].
  - intros p key t e now Hexp Hplain Henc Hlt.
    rewrite (ref_encode_plain p key e Hexp Hplain) in Henc. injection Henc as <-.
    rewrite (ref_decode_pickle key _ e now) by apply lookup_insert_eq.
    destruct (Z.leb_spec e now); [reflexivity | lia].
  - intros t key algorithms now x. unfold ref_decode.
    destruct (unpickle t) as [[signed_with claims]|]; [|intros [= <-]; eauto].
    destruct (negb _); [intros [= <-]; eauto|].
    destruct (negb _); [intros [= <-]; eauto|].
    destruct (claims !! "exp") as [[| |e|]|]; try (intros [= <-]; eauto);
      try discriminate.
    destruct (e <=? now); [intros [= <-]; eauto | discriminate].
Qed.

Lemma ref_hasher_laws : PasswordHasherLaws ref_hasher.
Proof.
  split; simpl; unfold ref_verify, ref_hash.
  intros salt p. rewrite unpickle_pickle. apply String.eqb_refl.
Qed.

(** ** Issuance *)

Section Issuance.
Context {J : JwtCodec} {S : Settings}.

Lemma to_encode_default (data : gmap string pyval) (utcnow : datetime) :
  datetime_min <= utcnow + 900 <= datetime_max ->
  to_encode data None utcnow = Ok (<["exp" := VDatetime (utcnow + 900)]> data).
Proof.
  intros Hrange. unfold to_encode.
  change (timedelta_minutes 15) with 900.
  rewrite (datetime_add_in_range _ _ Hrange). reflexivity.
Qed.

Lemma to_encode_nonzero (data : gmap string pyval) (d : timedelta)
      (utcnow : datetime) :
  d <> 0 -> datetime_min <= utcnow + d <= datetime_max ->
  to_encode data (Some d) utcnow = Ok (<["exp" := VDatetime (utcnow + d)]> data).
Proof.
  intros Hd Hrange. unfold to_encode, timedelta_bool.
  apply Z.eqb_neq in Hd. rewrite Hd. simpl.
  rewrite (datetime_add_in_range _ _ Hrange). reflexivity.
Qed.

Lemma to_encode_zero (data : gmap string pyval) (utcnow : datetime) :
  to_encode data (Some 0) utcnow = to_encode data None utcnow.
Proof. reflexivity. Qed.

(** The only way the claims are not built is an expiry out of range. *)
Lemma to_encode_Raise (data : gmap string pyval) (d : option timedelta)
      (utcnow : datetime) (e : exn) :
  to_encode data d utcnow = Raise e -> e = OverflowError.
Proof.
  unfold to_encode, datetime_add.
  destruct d as [d|]; [destruct (timedelta_bool d)|];
    match goal with |- context [if ?b then _ else _] => destruct b end;
    simpl; congruence.
Qed.

Context {L : JwtLaws J}.

(** Signing plain claims with an expiry [e]: the token exists, holds no
    blank, decodes before [e] and is refused after [e]. *)
Lemma sign_plain_claims (data : gmap string pyval) (e : datetime) :
  plain_claims (delete "exp" data) ->
  exists token,
    jwt_encode (<["exp" := VDatetime e]> data) SECRET_KEY ALGORITHM = Ok token /\
    no_space token = true /\
    (forall now, now < e ->
       jwt_decode token SECRET_KEY [ALGORITHM] now = Ok (<["exp" := VInt e]> data)) /\
    (forall now, e < now ->
       jwt_decode token SECRET_KEY [ALGORITHM] now
       = Raise (PyJWTError ExpiredSignatureError)).
Proof.
  intros Hplain.
  assert (Hexp : (<["exp" := VDatetime e]> data) !! "exp" = Some (VDatetime e))
    by apply lookup_insert_eq.
  assert (Hrest : plain_claims (delete "exp" (<["exp" := VDatetime e]> data)))
    by (rewrite delete_insert_eq; exact Hplain).
  destruct (jwt_encode_ok _ SECRET_KEY e Hexp Hrest) as (token & Henc & Hns).
  exists token. repeat split; try assumption.
  - intros now Hlt.
    rewrite (jwt_decode_fresh _ _ _ e now Hexp Hrest Henc Hlt).
    rewrite insert_insert_eq. reflexivity.
  - intros now Hlt. exact (jwt_decode_expired _ _ _ e now Hexp Hrest Henc Hlt).
Qed.

Lemma sub_claims_plain (s : string) :
  plain_claims (delete "exp" ({[ "sub" := VStr s ]} : gmap string pyval)).
Proof.
  rewrite delete_singleton_ne by discriminate.
  apply map_Forall_singleton. split; [|reflexivity].
  unfold registered_claims. intros Hin.
  repeat (apply elem_of_cons in Hin as [Hin|Hin]; [discriminate Hin|]).
  by apply elem_of_nil in Hin.
Qed.

End Issuance.

(** ** The cookie gate *)

Section Gate.
Context {J : JwtCodec} {S : Settings}.

Lemma get_current_user_no_cookie (db : list User) (now : datetime) :
  get_current_user bare_request db now = Raise not_authenticated.
Proof. reflexivity. Qed.

Lemma get_current_user_cookie (token : string) (db : list User) (now : datetime) :
  token <> "" ->
  get_current_user (cookie_request token) db now
  = (let* email := decode_subject token now in
     match get_user_by_email db email with
     | None => Raise credentials_exception
     | Some user => Ok user
     end).
Proof.
  intros Hne. unfold get_current_user, cookie_request. simpl.
  rewrite lookup_singleton_eq. destruct token; [contradiction | reflexivity].
Qed.

Lemma prefixed_nonempty (x r : string) : x +:+ String " " r <> "".
Proof. destruct x; discriminate. Qed.

(** Only the second word of the cookie reaches the decoder. *)
Lemma decode_subject_second_word (x r : string) (now : datetime) :
  no_space x = true ->
  decode_subject (x +:+ String " " r) now
  = except_PyJWTError
      (let* token := getitem (split " " r) 0 in
       let* payload := jwt_decode token SECRET_KEY [ALGORITHM] now in
       match payload !! "sub" with
       | None | Some VNone => Raise credentials_exception
       | Some email => Ok email
       end)
      credentials_exception.
Proof.
  intros Hx. unfold decode_subject.
  rewrite (getitem_1_first_word x r Hx). reflexivity.
Qed.

Lemma decode_subject_Bearer (t : string) (now : datetime) :
  no_space t = true ->
  decode_subject ("Bearer " +:+ t) now
  = except_PyJWTError
      (let* payload := jwt_decode t SECRET_KEY [ALGORITHM] now in
       match payload !! "sub" with
       | None | Some VNone => Raise credentials_exception
       | Some email => Ok email
       end)
      credentials_exception.
Proof.
  intros Ht. change ("Bearer " +:+ t) with ("Bearer" +:+ String " " t).
  rewrite decode_subject_second_word by reflexivity.
  rewrite (split_no_space t Ht). reflexivity.
Qed.

(** C1.  A non-empty cookie value that holds no blank makes
    [get_current_user] end with an IndexError, which the handler for
    PyJWTError does not catch: the outcome is not the 401 response. *)
Theorem cookie_without_blank_raises_IndexError
        (token : string) (db : list User) (now : datetime) :
  token <> "" -> no_space token = true ->
  get_current_user (cookie_request token) db now = Raise IndexError /\
  get_current_user (cookie_request token) db now <> Raise credentials_exception.
Proof.
  intros Hne Hns. rewrite (get_current_user_cookie token db now Hne).
  unfold decode_subject. rewrite (getitem_1_no_space token Hns).
  split; [reflexivity | discriminate].
Qed.

(** C9.  The first word of the cookie is never compared with Bearer: for
    every word [x] without a blank, the gate treats the cookie [x rest]
    exactly as it treats the cookie [Bearer rest]. *)
Theorem first_word_of_cookie_ignored
        (x rest : string) (db : list User) (now : datetime) :
  no_space x = true ->
  decode_subject (x +:+ String " " rest) now
  = decode_subject ("Bearer " +:+ rest) now /\
  get_current_user (cookie_request (x +:+ String " " rest)) db now
  = get_current_user (cookie_request ("Bearer " +:+ rest)) db now.
Proof.
  intros Hx.
  assert (Hsame : decode_subject (x +:+ String " " rest) now
                  = decode_subject ("Bearer " +:+ rest) now).
  { change ("Bearer " +:+ rest) with ("Bearer" +:+ String " " rest).
    rewrite !decode_subject_second_word by (exact Hx || reflexivity).
    reflexivity. }
  split; [exact Hsame|].
  rewrite !get_current_user_cookie by (apply prefixed_nonempty || discriminate).
  rewrite Hsame. reflexivity.
Qed.

(** C6.  When the decoded payload has no [sub] claim, or a null one, the
    gate answers 401 with the credentials message whatever the store holds;
    any other [sub], the empty string included, passes validation and is
    the email looked up in the store. *)
Theorem sub_claim_must_be_present
        (cookie token : string) (payload : gmap string pyval) (now : datetime) :
  getitem (split " " cookie) 1 = Ok token ->
  jwt_decode token SECRET_KEY [ALGORITHM] now = Ok payload ->
  (payload !! "sub" = None \/ payload !! "sub" = Some VNone ->
   decode_subject cookie now = Raise credentials_exception /\
   forall db, get_current_user (cookie_request cookie) db now
              = Raise credentials_exception) /\
  (forall v, payload !! "sub" = Some v -> v <> VNone ->
   decode_subject cookie now = Ok v /\
   forall db, get_current_user (cookie_request cookie) db now
              = match get_user_by_email db v with
                | None => Raise credentials_exception
                | Some user => Ok user
                end).
Proof.
  intros Hget Hdec.
  assert (Hne : cookie <> "") by (intros ->; discriminate Hget).
  split.
  - intros Hsub.
    assert (Hval : decode_subject cookie now = Raise credentials_exception).
    { unfold decode_subject. rewrite Hget. simpl. rewrite Hdec. simpl.
      destruct Hsub as [-> | ->]; reflexivity. }
    split; [exact Hval|]. intros db.
    rewrite (get_current_user_cookie cookie db now Hne), Hval. reflexivity.
  - intros v Hsub Hv.
    assert (Hval : decode_subject cookie now = Ok v).
    { unfold decode_subject. rewrite Hget. simpl. rewrite Hdec. simpl.
      rewrite Hsub. destruct v; try reflexivity. contradiction. }
    split; [exact Hval|]. intros db.
    rewrite (get_current_user_cookie cookie db now Hne), Hval. reflexivity.
Qed.

Context {L : JwtLaws J}.

Lemma decode_subject_Raise (cookie : string) (now : datetime) (x : exn) :
  decode_subject cookie now = Raise x ->
  x = IndexError \/ x = credentials_exception.
Proof.
  unfold decode_subject, getitem.
  destruct (split " " cookie !! 1%nat) as [token|]; simpl;
    [|intros [= <-]; by left].
  destruct (jwt_decode token SECRET_KEY [ALGORITHM] now) as [payload|y] eqn:Hdec;
    simpl.
  - destruct (payload !! "sub") as [[| | |]|]; simpl; intros [= <-]; by right.
  - destruct (jwt_decode_raises _ _ _ _ _ Hdec) as [e ->]. simpl.
    intros [= <-]. by right.
Qed.

End Gate.

(** ** Lifetime of an issued token *)

Section Lifetime.
Context {J : JwtCodec} {S : Settings} {L : JwtLaws J}.

(** The gate on a cookie [Bearer token] whose token decodes. *)
Lemma gate_accepts (token s : string) (claims : gmap string pyval)
      (db : list User) (now : datetime) :
  no_space token = true ->
  jwt_decode token SECRET_KEY [ALGORITHM] now = Ok claims ->
  claims !! "sub" = Some (VStr s) ->
  decode_subject ("Bearer " +:+ token) now = Ok (VStr s) /\
  get_current_user (cookie_request ("Bearer " +:+ token)) db now
  = match get_user_by_email db (VStr s) with
    | None => Raise credentials_exception
    | Some user => Ok user
    end.
Proof.
  intros Hns Hdec Hsub.
  assert (Hval : decode_subject ("Bearer " +:+ token) now = Ok (VStr s)).
  { rewrite (decode_subject_Bearer token now Hns), Hdec. simpl.
    rewrite Hsub. reflexivity. }
  split; [exact Hval|].
  rewrite get_current_user_cookie by discriminate. rewrite Hval. reflexivity.
Qed.

(** The gate on a cookie [Bearer token] whose token has expired. *)
Lemma gate_rejects_expired (token : string) (db : list User) (now : datetime) :
  no_space token = true ->
  jwt_decode token SECRET_KEY [ALGORITHM] now
  = Raise (PyJWTError ExpiredSignatureError) ->
  decode_subject ("Bearer " +:+ token) now = Raise credentials_exception /\
  get_current_user (cookie_request ("Bearer " +:+ token)) db now
  = Raise credentials_exception.
Proof.
  intros Hns Hdec.
  assert (Hval : decode_subject ("Bearer " +:+ token) now
                 = Raise credentials_exception).
  { rewrite (decode_subject_Bearer token now Hns), Hdec. reflexivity. }
  split; [exact Hval|].
  rewrite get_current_user_cookie by discriminate. rewrite Hval. reflexivity.
Qed.

Lemma sub_after_exp (s : string) (e : datetime) :
  (<["exp" := VInt e]> ({[ "sub" := VStr s ]} : gmap string pyval)) !! "sub"
  = Some (VStr s).
Proof.
  rewrite lookup_insert_ne by discriminate. apply lookup_singleton_eq.
Qed.

(** C5.  For every subject [s] and every ttl other than zero whose expiry
    is a representable datetime, once more than ttl has elapsed since the
    issuance the gate refuses the issued token with the 401 credentials
    answer, whatever the store holds: the [exp] claim alone decides. *)
Theorem outlived_token_refused
        (s : string) (ttl : timedelta) (utcnow now : datetime) :
  ttl <> 0 -> datetime_min <= utcnow + ttl <= datetime_max ->
  utcnow + ttl < now ->
  exists token,
    create_access_token {[ "sub" := VStr s ]} (Some ttl) utcnow = Ok token /\
    decode_subject ("Bearer " +:+ token) now = Raise credentials_exception /\
    forall db,
      get_current_user (cookie_request ("Bearer " +:+ token)) db now
      = Raise credentials_exception.
Proof.
  intros Hnz Hrange Hnow.
  destruct (sign_plain_claims {[ "sub" := VStr s ]} (utcnow + ttl)
              (sub_claims_plain s)) as (token & Henc & Hns & _ & Hexpired).
  exists token. unfold create_access_token.
  rewrite to_encode_nonzero by assumption. rewrite bind_Ok.
  split; [exact Henc|].
  assert (Hdec := Hexpired now Hnow).
  split; [|intros db].
  - apply (gate_rejects_expired token [] now Hns Hdec).
  - apply (gate_rejects_expired token db now Hns Hdec).
Qed.

(** C8.  Called without [expires_delta], [create_access_token] signs claims
    whose [exp] is the issuance instant plus 15 minutes, and the token it
    returns decodes, until then, to a payload whose [exp] claim is that
    instant. *)
Theorem default_expiry_is_15_minutes
        (data : gmap string pyval) (utcnow : datetime) :
  plain_claims (delete "exp" data) ->
  datetime_min <= utcnow + 15 * 60 <= datetime_max ->
  to_encode data None utcnow = Ok (<["exp" := VDatetime (utcnow + 15 * 60)]> data) /\
  exists token,
    create_access_token data None utcnow = Ok token /\
    forall now, now < utcnow + 15 * 60 ->
      exists payload,
        jwt_decode token SECRET_KEY [ALGORITHM] now = Ok payload /\
        payload !! "exp" = Some (VInt (utcnow + 15 * 60)).
Proof.
  intros Hplain Hrange. change (15 * 60) with 900 in *.
  split; [apply to_encode_default, Hrange|].
  destruct (sign_plain_claims data (utcnow + 900) Hplain)
    as (token & Henc & _ & Hfresh & _).
  exists token. unfold create_access_token.
  rewrite to_encode_default by assumption. rewrite bind_Ok.
  split; [exact Henc|].
  intros now Hnow. eexists. split; [apply Hfresh, Hnow|].
  apply lookup_insert_eq.
Qed.

End Lifetime.


(** ** Credentials *)

Lemma get_user_by_email_Some (db : list User) (e : string) (u : User) :
  get_user_by_email db (VStr e) = Some u -> In u db /\ email u = e.
Proof.
  intros Hfind. apply find_some in Hfind as [Hin Hmatch].
  split; [exact Hin|]. apply String.eqb_eq, Hmatch.
Qed.

Lemma get_user_by_email_None (db : list User) (e : string) :
  get_user_by_email db (VStr e) = None <-> forall u, In u db -> email u <> e.
Proof.
  split.
  - intros Hfind u Hin Heq.
    pose proof (find_none _ _ Hfind u Hin) as Hno. simpl in Hno.
    apply String.eqb_neq in Hno. contradiction.
  - intros Hall. unfold get_user_by_email.
    induction db as [|u db IH]; simpl; [reflexivity|].
    destruct (String.eqb_spec (email u) e) as [Heq|_].
    + exfalso. apply (Hall u); [by left | exact Heq].
    + apply IH. intros v Hin. apply Hall. by right.
Qed.

(** A row appended to a table that lacks its email is that email's row. *)
Lemma get_user_by_email_appended (db : list User) (u : User) :
  get_user_by_email db (VStr (email u)) = None ->
  get_user_by_email (db ++ [u]) (VStr (email u)) = Some u.
Proof.
  unfold get_user_by_email. induction db as [|v db IH]; simpl.
  - intros _. rewrite String.eqb_refl. reflexivity.
  - destruct (String.eqb (email v) (email u)); [discriminate | exact IH].
Qed.

Section Credentials.
Context {H : PasswordHasher} {LH : PasswordHasherLaws H}.
Variable commit_ok : list User -> User -> bool.

(** The store is keyed by email: an insert passes the constraints only
    when no row has the email yet. *)
Hypothesis commit_ok_unique :
  forall db u, commit_ok db u = true -> get_user_by_email db (VStr (email u)) = None.

(** C7.  [authenticate_user] returns a record exactly when the store has a
    record for the email and the password verifies against its hash, and
    None otherwise, that is for an unknown email or a password that does
    not verify; the record returned is a row of the store with that email.
    After a registration with password [p], authenticating with [p]
    returns the registered user, and authenticating with a password that
    the hasher does not verify against the hash of [p] returns None. *)
Theorem authenticate_user_checks_store_and_hash (db : list User) :
  (forall e pw u,
      authenticate_user db e pw = Some u <->
      get_user_by_email db (VStr e) = Some u /\
      pwd_verify pw (password u) = true) /\
  (forall e pw,
      authenticate_user db e pw = None <->
      get_user_by_email db (VStr e) = None \/
      exists u, get_user_by_email db (VStr e) = Some u /\
                pwd_verify pw (password u) = false) /\
  (forall e u, get_user_by_email db (VStr e) = Some u -> In u db /\ email u = e) /\
  (forall e, get_user_by_email db (VStr e) = None <->
             forall u, In u db -> email u <> e) /\
  (forall name e p salt,
      commit_ok db (mkUser name e (pwd_hash salt p)) = true ->
      exists db',
        create_user commit_ok db name e p salt
        = Ok (db', mkUser name e (pwd_hash salt p)) /\
        authenticate_user db' e p = Some (mkUser name e (pwd_hash salt p)) /\
        forall q, pwd_verify q (pwd_hash salt p) = false ->
                  authenticate_user db' e q = None).
Proof.
  split; [|split; [|split; [|split]]].
  - intros e pw u. unfold authenticate_user.
    destruct (get_user_by_email db (VStr e)) as [v|]; [|split; [|intros []]; discriminate].
    destruct (pwd_verify pw (password v)) eqn:Hv; split.
    + intros [= <-]. auto.
    + intros [[= <-] _]. reflexivity.
    + discriminate.
    + intros [[= <-] Hu]. congruence.
  - intros e pw. unfold authenticate_user.
    destruct (get_user_by_email db (VStr e)) as [v|]; [|split; auto].
    destruct (pwd_verify pw (password v)) eqn:Hv; split.
    + discriminate.
    + intros [|(u & [= <-] & Hu)]; [discriminate | congruence].
    + intros _. right. eauto.
    + reflexivity.
  - apply get_user_by_email_Some.
  - apply get_user_by_email_None.
  - intros name e p salt Hok.
    exists (db ++ [mkUser name e (pwd_hash salt p)])%list.
    pose proof (commit_ok_unique _ _ Hok) as Hfresh. simpl in Hfresh.
    pose proof (get_user_by_email_appended db (mkUser name e (pwd_hash salt p)) Hfresh)
      as Hrow.
    simpl in Hrow.
    split; [unfold create_user; rewrite Hok; reflexivity|].
    unfold authenticate_user. rewrite Hrow. simpl. split.
    + rewrite pwd_verify_hash. reflexivity.
    + intros q Hq. rewrite Hq. reflexivity.
Qed.

End Credentials.

(** ** Every way the gate refuses *)

(** A string with a blank has a second word. *)
Lemma split_second_word (s : string) :
  no_space s = false -> exists t, getitem (split " " s) 1 = Ok t.
Proof.
  induction s as [|c r IH]; simpl; [discriminate|].
  destruct (Ascii.eqb c " ") eqn:Hc; simpl.
  - intros _. pose proof (split_nonempty " " r) as Hne.
    destruct (split " " r) as [|w ws]; [contradiction|]. exists w. reflexivity.
  - intros Hr. destruct (IH Hr) as [t Ht].
    pose proof (split_nonempty " " r) as Hne.
    destruct (split " " r) as [|w ws]; [contradiction|]. exists t. exact Ht.
Qed.

Section Refusals.
Context {J : JwtCodec} {S : Settings} {L : JwtLaws J}.

Lemma decode_subject_IndexError (cookie : string) (now : datetime) :
  decode_subject cookie now = Raise IndexError <-> no_space cookie = true.
Proof.
  split.
  - intros Hval. destruct (no_space cookie) eqn:Hns; [reflexivity|].
    destruct (split_second_word cookie Hns) as [token Hget].
    revert Hval. unfold decode_subject. rewrite Hget. simpl.
    destruct (jwt_decode token SECRET_KEY [ALGORITHM] now) as [payload|y] eqn:Hdec;
      simpl.
    + destruct (payload !! "sub") as [[| | |]|]; discriminate.
    + destruct (jwt_decode_raises _ _ _ _ _ Hdec) as [e ->]. discriminate.
  - intros Hns. unfold decode_subject.
    rewrite (getitem_1_no_space cookie Hns). reflexivity.
Qed.

(** C3.  The outcomes with which [get_current_user] refuses a request are
    three: the 401 Not authenticated with its challenge header, the 401
    Could not validate credentials with its challenge header, and an
    IndexError.  The IndexError is the outcome exactly when the cookie is
    not empty and holds no blank: that refusal has no status 401, no
    challenge header and neither of the two messages. *)
Theorem refusals_401_or_IndexError
        (request : Request) (db : list User) (now : datetime) :
  (forall x, get_current_user request db now = Raise x ->
     x = HTTPException 401 "Not authenticated" [("WWW-Authenticate", "Bearer")] \/
     x = HTTPException 401 "Could not validate credentials"
                       [("WWW-Authenticate", "Bearer")] \/
     x = IndexError) /\
  (get_current_user request db now = Raise IndexError <->
   exists cookie,
     cookies request !! "access_token" = Some cookie /\
     cookie <> "" /\ no_space cookie = true).
Proof.
  unfold get_current_user.
  destruct (cookies request !! "access_token") as [[|c cookie]|] eqn:Hcookie.
  - split; [intros x [= <-]; auto|].
    split; [discriminate|]. intros (k & [= <-] & Hne & _). contradiction.
  - destruct (decode_subject (String c cookie) now) as [v|y] eqn:Hval; simpl.
    + split.
      * destruct (get_user_by_email db v); [discriminate|]. intros x [= <-]. auto.
      * split.
        -- destruct (get_user_by_email db v); discriminate.
        -- intros (k & [= <-] & _ & Hns).
           apply (proj2 (decode_subject_IndexError _ now)) in Hns. congruence.
    + split.
      * intros x [= <-].
        destruct (decode_subject_Raise _ _ _ Hval) as [-> | ->]; auto.
      * split.
        -- intros [= ->]. exists (String c cookie).
           split; [reflexivity|]. split; [discriminate|].
           apply (proj1 (decode_subject_IndexError _ now)), Hval.
        -- intros (k & [= <-] & _ & Hns).
           apply (proj2 (decode_subject_IndexError _ now)) in Hns. congruence.
  - split; [intros x [= <-]; auto|].
    split; [discriminate|]. intros (k & Hk & _). discriminate.
Qed.

End Refusals.

(** ** The zero lifetime *)

Section ZeroLifetime.
Context {J : JwtCodec} {S : Settings} {L : JwtLaws J}.

(** C10.  A zero [expires_delta] is falsy, so the call takes the branch of
    the omitted argument: it is the same call as the one without the
    argument, the claims signed carry the issuance instant plus 15
    minutes, and the token returned decodes, at the issuance instant and
    until those 15 minutes have passed, to a payload whose [exp] claim is
    that instant. *)
Theorem zero_delta_is_default
        (data : gmap string pyval) (utcnow : datetime) :
  plain_claims (delete "exp" data) ->
  datetime_min <= utcnow + 15 * 60 <= datetime_max ->
  timedelta_bool 0 = false /\
  create_access_token data (Some 0) utcnow = create_access_token data None utcnow /\
  to_encode data (Some 0) utcnow
  = Ok (<["exp" := VDatetime (utcnow + 15 * 60)]> data) /\
  exists token,
    create_access_token data (Some 0) utcnow = Ok token /\
    forall now, utcnow <= now < utcnow + 15 * 60 ->
      exists payload,
        jwt_decode token SECRET_KEY [ALGORITHM] now = Ok payload /\
        payload !! "exp" = Some (VInt (utcnow + 15 * 60)).
Proof.
  intros Hplain Hrange. change (15 * 60) with 900 in *.
  split; [reflexivity|]. split; [reflexivity|].
  split; [rewrite to_encode_zero; apply to_encode_default, Hrange|].
  destruct (sign_plain_claims data (utcnow + 900) Hplain)
    as (token & Henc & _ & Hfresh & _).
  exists token. unfold create_access_token.
  rewrite to_encode_zero, to_encode_default by assumption. rewrite bind_Ok.
  split; [exact Henc|].
  intros now Hnow. eexists. split; [apply Hfresh; lia|].
  apply lookup_insert_eq.
Qed.

End ZeroLifetime.

(** ** Lifetimes under one second *)

Lemma micro_datetime_add_in_range (t : datetime) (d : timedelta) :
  micro.datetime_min <= t + d <= micro.datetime_max ->
  micro.datetime_add t d = Ok (t + d).
Proof.
  intros [Hlo Hhi]. unfold micro.datetime_add.
  apply Z.leb_le in Hlo. apply Z.leb_le in Hhi.
  rewrite Hlo, Hhi. reflexivity.
Qed.

(** The issuance instant lies before the second of an expiry that is at
    least one second away. *)
Lemma timegm_after_a_second (t : datetime) (d : timedelta) :
  micro.second <= d -> t < micro.timegm (t + d) * micro.second.
Proof.
  unfold micro.timegm, micro.second. intros Hd.
  pose proof (Z.div_mod (t + d) 1000000 ltac:(lia)) as Hdiv.
  pose proof (Z.mod_pos_bound (t + d) 1000000 ltac:(lia)) as Hmod.
  lia.
Qed.

Lemma micro_numeric_dates_plain (p : gmap string pyval) (e : datetime) :
  p !! "exp" = Some (VDatetime e) -> plain_claims (delete "exp" p) ->
  micro.numeric_date "nbf" (micro.numeric_date "iat" (micro.numeric_date "exp" p))
  = <["exp" := VInt (micro.timegm e)]> p.
Proof.
  intros Hexp Hplain.
  assert (Hiat : p !! "iat" = None).
  { apply plain_claims_unregistered; [exact Hplain | discriminate |].
    unfold registered_claims. set_solver. }
  assert (Hnbf : p !! "nbf" = None).
  { apply plain_claims_unregistered; [exact Hplain | discriminate |].
    unfold registered_claims. set_solver. }
  unfold micro.numeric_date at 3. rewrite Hexp.
  unfold micro.numeric_date at 2. rewrite lookup_insert_ne by discriminate.
  rewrite Hiat.
  unfold micro.numeric_date. rewrite lookup_insert_ne by discriminate.
  rewrite Hnbf. reflexivity.
Qed.

Lemma micro_ref_encode_plain (p : gmap string pyval) (key : string) (e : datetime) :
  p !! "exp" = Some (VDatetime e) -> plain_claims (delete "exp" p) ->
  micro.ref_encode p key ALGORITHM
  = Ok (pickle (key, <["exp" := VInt (micro.timegm e)]> p)).
Proof.
  intros Hexp Hplain. unfold micro.ref_encode.
  rewrite (micro_numeric_dates_plain p e Hexp Hplain).
  rewrite String.eqb_refl. simpl.
  rewrite bool_decide_eq_true_2; [reflexivity|].
  apply signed_claims_serialisable, Hplain.
Qed.

Lemma micro_ref_decode_pickle (key : string) (claims : gmap string pyval)
      (e now : datetime) :
  claims !! "exp" = Some (VInt e) ->
  micro.ref_decode (pickle (key, claims)) key [ALGORITHM] now
  = if e * micro.second <=? now then Raise (PyJWTError ExpiredSignatureError)
    else Ok claims.
Proof.
  intros Hexp. unfold micro.ref_decode. rewrite unpickle_pickle.
  rewrite bool_decide_eq_true_2 by (apply list_elem_of_here).
  rewrite String.eqb_refl. simpl. rewrite Hexp. reflexivity.
Qed.

Lemma micro_ref_codec_laws : micro.JwtLaws micro.ref_codec.
Proof.
  split; simpl.
  - intros p key e _ Hexp Hplain. eexists. split.
    + apply micro_ref_encode_plain; eassumption.
    + apply no_space_pickle.
  - intros p key t e now _ Hexp Hplain Henc Hlt.
    rewrite (micro_ref_encode_plain p key e Hexp Hplain) in Henc.
    injection Henc as <-.
    rewrite (micro_ref_decode_pickle key _ (micro.timegm e) now)
      by apply lookup_insert_eq.
    destruct (Z.leb_spec (micro.timegm e * micro.second) now); [lia | reflexivity].
  - intros p key t e now _ Hexp Hplain Henc Hle.
    rewrite (micro_ref_encode_plain p key e Hexp Hplain) in Henc.
    injection Henc as <-.
    rewrite (micro_ref_decode_pickle key _ (micro.timegm e) now)
      by apply lookup_insert_eq.
    destruct (Z.leb_spec (micro.timegm e * micro.second) now); [reflexivity | lia].
Qed.

Section Microseconds.
Context {J : JwtCodec} {L : micro.JwtLaws J}.

Lemma micro_issue (s : string) (ttl : timedelta) (utcnow : datetime) :
  ttl <> 0 -> micro.datetime_min <= utcnow + ttl <= micro.datetime_max ->
  exists token,
    micro.create_access_token {[ "sub" := VStr s ]} (Some ttl) utcnow = Ok token /\
    no_space token = true /\
    forall now, now < micro.timegm (utcnow + ttl) * micro.second ->
      jwt_decode token SECRET_KEY [ALGORITHM] now
      = Ok (<["exp" := VInt (micro.timegm (utcnow + ttl))]> {[ "sub" := VStr s ]}).
Proof.
  intros Hnz Hrange.
  assert (Hkey : @SECRET_KEY auth_settings <> "") by discriminate.
  assert (Hexp : (<["exp" := VDatetime (utcnow + ttl)]>
                    ({[ "sub" := VStr s ]} : gmap string pyval)) !! "exp"
                 = Some (VDatetime (utcnow + ttl))) by apply lookup_insert_eq.
  assert (Hrest : plain_claims
                    (delete "exp" (<["exp" := VDatetime (utcnow + ttl)]>
                                     ({[ "sub" := VStr s ]} : gmap string pyval)))).
  { rewrite delete_insert_eq. apply sub_claims_plain. }
  destruct (micro.encode_ok _ SECRET_KEY _ Hkey Hexp Hrest) as (token & Henc & Hns).
  exists token. split.
  - unfold micro.create_access_token, micro.to_encode, timedelta_bool.
    apply Z.eqb_neq in Hnz. rewrite Hnz. simpl.
    rewrite (micro_datetime_add_in_range _ _ Hrange). exact Henc.
  - split; [exact Hns|]. intros now Hnow.
    rewrite (micro.decode_before_exp _ _ _ _ now Hkey Hexp Hrest Henc Hnow).
    rewrite insert_insert_eq. reflexivity.
Qed.

(** C4.  With the clock in microseconds and the key of auth.py: for every
    subject [s] and every ttl of at least one second whose expiry is a
    representable datetime, [create_access_token] returns a token; the
    issuance instant lies before the second its [exp] claim names; and at
    every instant from the issuance up to that second the gate, given the
    token behind the Bearer prefix, validates it with subject [s] and
    answers with the store's record for [s]. *)
Theorem issued_token_validates
        (s : string) (ttl : timedelta) (utcnow : datetime) :
  micro.second <= ttl ->
  micro.datetime_min <= utcnow + ttl <= micro.datetime_max ->
  utcnow < micro.timegm (utcnow + ttl) * micro.second /\
  exists token,
    micro.create_access_token {[ "sub" := VStr s ]} (Some ttl) utcnow = Ok token /\
    forall now,
      utcnow <= now < micro.timegm (utcnow + ttl) * micro.second ->
      decode_subject ("Bearer " +:+ token) now = Ok (VStr s) /\
      forall db,
        get_current_user (cookie_request ("Bearer " +:+ token)) db now
        = match get_user_by_email db (VStr s) with
          | None => Raise credentials_exception
          | Some user => Ok user
          end.
Proof.
  intros Httl Hrange.
  split; [apply timegm_after_a_second, Httl|].
  assert (Hnz : ttl <> 0) by (unfold micro.second in Httl; lia).
  destruct (micro_issue s ttl utcnow Hnz Hrange) as (token & Htok & Hns & Hfresh).
  exists token. split; [exact Htok|].
  intros now [_ Hnow]. pose proof (Hfresh now Hnow) as Hdec.
  split; [|intros db].
  - apply (gate_accepts token s _ [] now Hns Hdec (sub_after_exp s _)).
  - apply (gate_accepts token s _ db now Hns Hdec (sub_after_exp s _)).
Qed.

End Microseconds.

(** ** The statements at concrete requests *)

Lemma unique_email_sound (db : list User) (u : User) :
  unique_email db u = true -> get_user_by_email db (VStr (email u)) = None.
Proof.
  unfold unique_email.
  destruct (get_user_by_email db (VStr (email u))); [discriminate | reflexivity].
Qed.

Lemma cookie_without_blank_witness :
  "abc" <> "" /\ no_space "abc" = true /\
  (get_current_user (J := ref_codec) (cookie_request "abc") [] 1000
   = Raise IndexError /\
   get_current_user (J := ref_codec) (cookie_request "abc") [] 1000
   <> Raise credentials_exception).
Proof.
  split; [discriminate|]. split; [reflexivity|].
  apply (cookie_without_blank_raises_IndexError (J := ref_codec));
    [discriminate | reflexivity].
Defined.

Lemma first_word_witness :
  no_space "Basic" = true /\
  (decode_subject (J := ref_codec) ("Basic" +:+ String " " token_without_sub) 1000
   = decode_subject (J := ref_codec) ("Bearer " +:+ token_without_sub) 1000 /\
   get_current_user (J := ref_codec)
     (cookie_request ("Basic" +:+ String " " token_without_sub)) [bob] 1000
   = get_current_user (J := ref_codec)
       (cookie_request ("Bearer " +:+ token_without_sub)) [bob] 1000).
Proof.
  split; [reflexivity|].
  apply (first_word_of_cookie_ignored (J := ref_codec)). reflexivity.
Defined.

Lemma sub_claim_witness :
  getitem (split " " ("Bearer " +:+ token_without_sub)) 1 = Ok token_without_sub /\
  jwt_decode (JwtCodec := ref_codec) token_without_sub SECRET_KEY [ALGORITHM] 1000
  = Ok {[ "exp" := VInt 2000 ]} /\
  (decode_subject (J := ref_codec) ("Bearer " +:+ token_without_sub) 1000
   = Raise credentials_exception /\
   forall db,
     get_current_user (J := ref_codec)
       (cookie_request ("Bearer " +:+ token_without_sub)) db 1000
     = Raise credentials_exception).
Proof.
  assert (Hget : getitem (split " " ("Bearer " +:+ token_without_sub)) 1
                 = Ok token_without_sub) by (vm_compute; reflexivity).
  assert (Hdec : jwt_decode (JwtCodec := ref_codec) token_without_sub
                   SECRET_KEY [ALGORITHM] 1000
                 = Ok {[ "exp" := VInt 2000 ]}) by (vm_compute; reflexivity).
  split; [exact Hget|]. split; [exact Hdec|].
  apply (proj1 (sub_claim_must_be_present (J := ref_codec) _ _ _ _ Hget Hdec)).
  left. reflexivity.
Defined.

Lemma outlived_token_witness :
  JwtLaws ref_codec /\
  900 <> 0 /\ datetime_min <= 1000 + 900 <= datetime_max /\ 1000 + 900 < 1901 /\
  exists token,
    create_access_token (J := ref_codec) {[ "sub" := VStr "a@x.com" ]} (Some 900) 1000
    = Ok token /\
    decode_subject (J := ref_codec) ("Bearer " +:+ token) 1901
    = Raise credentials_exception /\
    forall db,
      get_current_user (J := ref_codec) (cookie_request ("Bearer " +:+ token)) db 1901
      = Raise credentials_exception.
Proof.
  split; [exact ref_codec_laws|].
  split; [lia|]. split; [unfold datetime_min, datetime_max; lia|].
  split; [lia|].
  apply (outlived_token_refused (J := ref_codec) (L := ref_codec_laws));
    unfold datetime_min, datetime_max; lia.
Defined.

Lemma default_expiry_witness :
  JwtLaws ref_codec /\
  plain_claims (delete "exp" ({[ "sub" := VStr "a@x.com" ]} : gmap string pyval)) /\
  datetime_min <= 1000 + 15 * 60 <= datetime_max /\
  (to_encode {[ "sub" := VStr "a@x.com" ]} None 1000
   = Ok (<["exp" := VDatetime (1000 + 15 * 60)]> {[ "sub" := VStr "a@x.com" ]}) /\
   exists token,
     create_access_token (J := ref_codec) {[ "sub" := VStr "a@x.com" ]} None 1000
     = Ok token /\
     forall now, now < 1000 + 15 * 60 ->
       exists payload,
         jwt_decode (JwtCodec := ref_codec) token SECRET_KEY [ALGORITHM] now
         = Ok payload /\
         payload !! "exp" = Some (VInt (1000 + 15 * 60))).
Proof.
  split; [exact ref_codec_laws|].
  split; [apply sub_claims_plain|].
  split; [unfold datetime_min, datetime_max; lia|].
  apply (default_expiry_is_15_minutes (J := ref_codec) (L := ref_codec_laws));
    [apply sub_claims_plain | unfold datetime_min, datetime_max; lia].
Defined.


Lemma register_then_authenticate_witness :
  PasswordHasherLaws ref_hasher /\
  (forall db u, unique_email db u = true ->
                get_user_by_email db (VStr (email u)) = None) /\
  unique_email [] bob = true /\
  exists db',
    create_user (H := ref_hasher) unique_email [] "bob" "b@x.com" "pw1" "salt"
    = Ok (db', bob) /\
    authenticate_user (H := ref_hasher) db' "b@x.com" "pw1" = Some bob /\
    authenticate_user (H := ref_hasher) db' "b@x.com" "wrong" = None.
Proof.
  split; [exact ref_hasher_laws|]. split; [exact unique_email_sound|].
  split; [reflexivity|].
  destruct (authenticate_user_checks_store_and_hash
              (H := ref_hasher) (LH := ref_hasher_laws)
              unique_email unique_email_sound [])
    as (_ & _ & _ & _ & Hregister).
  destruct (Hregister "bob" "b@x.com" "pw1" "salt" eq_refl)
    as (db' & Hcreate & Hright & Hwrong).
  exists db'. split; [exact Hcreate|]. split; [exact Hright|].
  apply Hwrong. vm_compute. reflexivity.
Defined.

Lemma refusals_witness :
  JwtLaws ref_codec /\
  ((forall x, get_current_user (J := ref_codec) (cookie_request "abc") [bob] 1000
              = Raise x ->
      x = HTTPException 401 "Not authenticated" [("WWW-Authenticate", "Bearer")] \/
      x = HTTPException 401 "Could not validate credentials"
                        [("WWW-Authenticate", "Bearer")] \/
      x = IndexError) /\
   (get_current_user (J := ref_codec) (cookie_request "abc") [bob] 1000
    = Raise IndexError <->
    exists cookie,
      cookies (cookie_request "abc") !! "access_token" = Some cookie /\
      cookie <> "" /\ no_space cookie = true)).
Proof.
  split; [exact ref_codec_laws|].
  exact (refusals_401_or_IndexError (J := ref_codec) (L := ref_codec_laws)
           (cookie_request "abc") [bob] 1000).
Defined.

Lemma zero_delta_witness :
  JwtLaws ref_codec /\
  plain_claims (delete "exp" ({[ "sub" := VStr "a@x.com" ]} : gmap string pyval)) /\
  datetime_min <= 1000 + 15 * 60 <= datetime_max /\
  (timedelta_bool 0 = false /\
   create_access_token (J := ref_codec) {[ "sub" := VStr "a@x.com" ]} (Some 0) 1000
   = create_access_token (J := ref_codec) {[ "sub" := VStr "a@x.com" ]} None 1000 /\
   to_encode {[ "sub" := VStr "a@x.com" ]} (Some 0) 1000
   = Ok (<["exp" := VDatetime (1000 + 15 * 60)]> {[ "sub" := VStr "a@x.com" ]}) /\
   exists token,
     create_access_token (J := ref_codec) {[ "sub" := VStr "a@x.com" ]} (Some 0) 1000
     = Ok token /\
     forall now, 1000 <= now < 1000 + 15 * 60 ->
       exists payload,
         jwt_decode (JwtCodec := ref_codec) token SECRET_KEY [ALGORITHM] now
         = Ok payload /\
         payload !! "exp" = Some (VInt (1000 + 15 * 60))).
Proof.
  split; [exact ref_codec_laws|].
  split; [apply sub_claims_plain|].
  split; [unfold datetime_min, datetime_max; lia|].
  apply (zero_delta_is_default (J := ref_codec) (L := ref_codec_laws));
    [apply sub_claims_plain | unfold datetime_min, datetime_max; lia].
Defined.

Lemma issued_token_witness :
  micro.JwtLaws micro.ref_codec /\
  micro.second <= 900 * micro.second /\
  micro.datetime_min <= 1000200000 + 900 * micro.second <= micro.datetime_max /\
  (1000200000 < micro.timegm (1000200000 + 900 * micro.second) * micro.second /\
   exists token,
     micro.create_access_token (J := micro.ref_codec)
       {[ "sub" := VStr "a@x.com" ]} (Some (900 * micro.second)) 1000200000
     = Ok token /\
     forall now,
       1000200000 <= now
       < micro.timegm (1000200000 + 900 * micro.second) * micro.second ->
       decode_subject (J := micro.ref_codec) ("Bearer " +:+ token) now
       = Ok (VStr "a@x.com") /\
       forall db,
         get_current_user (J := micro.ref_codec)
           (cookie_request ("Bearer " +:+ token)) db now
         = match get_user_by_email db (VStr "a@x.com") with
           | None => Raise credentials_exception
           | Some user => Ok user
           end).
Proof.
  split; [exact micro_ref_codec_laws|].
  split; [unfold micro.second; lia|].
  split; [unfold micro.datetime_min, micro.datetime_max, micro.second; lia|].
  apply (issued_token_validates (J := micro.ref_codec) (L := micro_ref_codec_laws));
    unfold micro.datetime_min, micro.datetime_max, micro.second; lia.
Defined.

(** ** Where the code departs from the specification *)

(** A token issued with a zero ttl is accepted a full minute after its
    issuance, although more than ttl has elapsed. *)
Lemma zero_ttl_token_still_accepted :
  exists token,
    create_access_token (J := ref_codec) {[ "sub" := VStr "b@x.com" ]} (Some 0) 1000
    = Ok token /\
    1000 + 0 < 1060 /\
    decode_subject (J := ref_codec) ("Bearer " +:+ token) 1060 = Ok (VStr "b@x.com") /\
    get_current_user (J := ref_codec) (cookie_request ("Bearer " +:+ token)) [bob] 1060
    = Ok bob.
Proof.
  eexists. split; [vm_compute; reflexivity|].
  split; [lia|]. split; vm_compute; reflexivity.
Qed.

(** A token whose [sub] is the empty string passes validation, and the
    request is answered with the record whose email is empty. *)
Lemma empty_sub_passes_validation :
  exists token,
    create_access_token (J := ref_codec) {[ "sub" := VStr "" ]} None 1000 = Ok token /\
    jwt_decode (JwtCodec := ref_codec) token SECRET_KEY [ALGORITHM] 1000
    = Ok (<["exp" := VInt 1900]> {[ "sub" := VStr "" ]}) /\
    decode_subject (J := ref_codec) ("Bearer " +:+ token) 1000 = Ok (VStr "") /\
    get_current_user (J := ref_codec) (cookie_request ("Bearer " +:+ token))
      [bob; nameless] 1000
    = Ok nameless.
Proof.
  eexists. split; [vm_compute; reflexivity|].
  split; [|split]; vm_compute; reflexivity.
Qed.

(** A token issued with a ttl of half a second, two tenths of a second
    into a second, carries the [exp] of the second that has begun and is
    refused at the issuance instant. *)
Lemma half_second_token_refused_at_once :
  exists token,
    micro.create_access_token (J := micro.ref_codec)
      {[ "sub" := VStr "b@x.com" ]} (Some 500000) 1000200000 = Ok token /\
    0 < 500000 /\
    jwt_decode (JwtCodec := micro.ref_codec) token SECRET_KEY [ALGORITHM] 1000200000
    = Raise (PyJWTError ExpiredSignatureError) /\
    decode_subject (J := micro.ref_codec) ("Bearer " +:+ token) 1000200000
    = Raise credentials_exception /\
    get_current_user (J := micro.ref_codec)
      (cookie_request ("Bearer " +:+ token)) [bob] 1000200000
    = Raise credentials_exception.
Proof.
  eexists. split; [vm_compute; reflexivity|].
  split; [lia|]. split; [|split]; vm_compute; reflexivity.
Qed.

(** After a registration with a password of 73 bytes, another password
    with the same first 72 bytes authenticates as the registered user. *)
Lemma other_password_authenticates :
  long_password_2 <> long_password_1 /\
  exists db' user,
    create_user (H := ref_hasher) unique_email [] "bob" "b@x.com"
      long_password_1 "salt" = Ok (db', user) /\
    authenticate_user (H := ref_hasher) db' "b@x.com" long_password_2 = Some user.
Proof.
  split; [discriminate|].
  eexists. eexists. split; vm_compute; reflexivity.
Qed.

(** A cookie [Basic token] opens the gate as [Bearer token] does. *)
Example basic_prefix_authenticates :
  exists token,
    login (J := ref_codec) (H := ref_hasher) [bob] "b@x.com" "pw1" 1000
    = Ok ("Bearer " +:+ token) /\
    get_current_user (J := ref_codec) (cookie_request ("Basic " +:+ token)) [bob] 1000
    = Ok bob.
Proof. eexists. split; vm_compute; reflexivity. Qed.

(** * Beyond the claims: the gate, the routes and the store *)

(** ** More on the cookie gate *)

Section GateMore.
Context {J : JwtCodec} {S : Settings}.

(** The record a lookup returns is a row of the store; when the value
    looked up is a string, it is the email of that row. *)
Lemma get_user_by_email_row (db : list User) (v : pyval) (u : User) :
  get_user_by_email db v = Some u ->
  In u db /\ forall s, v = VStr s -> email u = s.
Proof.
  intros Hfind. apply find_some in Hfind as [Hin Hmatch].
  split; [exact Hin|]. intros s ->. apply String.eqb_eq, Hmatch.
Qed.

Lemma decode_subject_Ok (cookie : string) (now : datetime) (v : pyval) :
  decode_subject cookie now = Ok v ->
  exists token payload,
    getitem (split " " cookie) 1 = Ok token /\
    jwt_decode token SECRET_KEY [ALGORITHM] now = Ok payload /\
    payload !! "sub" = Some v.
Proof.
  unfold decode_subject, getitem.
  destruct (split " " cookie !! 1%nat) as [token|]; simpl; [|discriminate].
  destruct (jwt_decode token SECRET_KEY [ALGORITHM] now) as [payload|x] eqn:Hdec;
    simpl; [|destruct x; discriminate].
  destruct (payload !! "sub") as [[| | |]|] eqn:Hsub; simpl;
    try discriminate; intros [= <-]; exists token, payload; auto.
Qed.

(** X1.  The gate never lets a request through without a token: when
    [get_current_user] returns a user, the cookie holds a second word that
    the decoder accepts under SECRET_KEY at that instant, the decoded
    payload has a [sub] that is not null, the user returned is the record
    the store gave for that [sub] and a row of the store, and when the
    [sub] is a string it is the email of the user returned. *)
Theorem gate_returns_only_the_token_subject
        (request : Request) (db : list User) (now : datetime) (u : User) :
  get_current_user request db now = Ok u ->
  exists cookie token payload v,
    cookies request !! "access_token" = Some cookie /\
    getitem (split " " cookie) 1 = Ok token /\
    jwt_decode token SECRET_KEY [ALGORITHM] now = Ok payload /\
    payload !! "sub" = Some v /\ v <> VNone /\
    get_user_by_email db v = Some u /\
    In u db /\
    (forall s, v = VStr s -> email u = s).
Proof.
  unfold get_current_user. intros Hres.
  destruct (cookies request !! "access_token") as [[|c cookie]|];
    [discriminate | | discriminate].
  destruct (decode_subject (String c cookie) now) as [v|x] eqn:Hval;
    simpl in Hres; [|discriminate].
  destruct (get_user_by_email db v) as [user|] eqn:Hfind; [|discriminate].
  injection Hres as ->.
  destruct (get_user_by_email_row db v u Hfind) as [Hin Hemail].
  destruct (decode_subject_Ok _ _ _ Hval) as (token & payload & Hget & Hdec & Hsub).
  assert (Hv : v <> VNone).
  { intros ->. revert Hval. unfold decode_subject. rewrite Hget. simpl.
    rewrite Hdec. simpl. rewrite Hsub. discriminate. }
  exists (String c cookie), token, payload, v.
  repeat (split; [assumption || reflexivity|]). exact Hemail.
Qed.

(** The second word is all the gate reads of a cookie with two blanks. *)
Lemma getitem_1_second_of_three (x t rest : string) :
  no_space x = true -> no_space t = true ->
  getitem (split " " (x +:+ String " " (t +:+ String " " rest))) 1 = Ok t.
Proof.
  intros Hx Ht. rewrite (getitem_1_first_word x _ Hx).
  rewrite (split_first_word t rest Ht). reflexivity.
Qed.

(** X3.  Whatever follows a second blank in the cookie is ignored: the
    cookie [x t rest], with [x] and [t] free of blanks, is treated as the
    cookie [Bearer t]. *)
Theorem words_after_token_ignored
        (x t rest : string) (db : list User) (now : datetime) :
  no_space x = true -> no_space t = true ->
  get_current_user
    (cookie_request (x +:+ String " " (t +:+ String " " rest))) db now
  = get_current_user (cookie_request ("Bearer " +:+ t)) db now.
Proof.
  intros Hx Ht.
  rewrite !get_current_user_cookie by (apply prefixed_nonempty || discriminate).
  rewrite (decode_subject_Bearer t now Ht).
  unfold decode_subject. rewrite (getitem_1_second_of_three x t rest Hx Ht).
  reflexivity.
Qed.

Context {L : JwtLaws J}.

(** X2.  The answer Not authenticated is given exactly when the request
    has no [access_token] cookie or an empty one. *)
Theorem not_authenticated_iff_no_cookie
        (request : Request) (db : list User) (now : datetime) :
  get_current_user request db now
  = Raise (HTTPException 401 "Not authenticated" [("WWW-Authenticate", "Bearer")])
  <-> cookies request !! "access_token" = None \/
      cookies request !! "access_token" = Some "".
Proof.
  unfold get_current_user.
  destruct (cookies request !! "access_token") as [[|c cookie]|]; split;
    try (intros _; reflexivity); auto.
  - destruct (decode_subject (String c cookie) now) as [v|x] eqn:Hval; simpl.
    + destruct (get_user_by_email db v); discriminate.
    + destruct (decode_subject_Raise _ _ _ Hval) as [-> | ->]; discriminate.
  - intros [|]; discriminate.
Qed.

End GateMore.

(** ** More on issuance *)

Lemma datetime_add_Ok (t : datetime) (d : timedelta) (r : datetime) :
  datetime_add t d = Ok r -> r = t + d /\ datetime_min <= t + d <= datetime_max.
Proof.
  unfold datetime_add.
  destruct (datetime_min <=? t + d) eqn:Hlo; simpl; [|discriminate].
  destruct (t + d <=? datetime_max) eqn:Hhi; [|discriminate].
  intros [= <-]. apply Z.leb_le in Hlo. apply Z.leb_le in Hhi. auto.
Qed.

Lemma datetime_add_Raise (t : datetime) (d : timedelta) (e : exn) :
  datetime_add t d = Raise e ->
  e = OverflowError /\ ~ (datetime_min <= t + d <= datetime_max).
Proof.
  unfold datetime_add.
  destruct (datetime_min <=? t + d) eqn:Hlo; simpl.
  - destruct (t + d <=? datetime_max) eqn:Hhi; [discriminate|].
    intros [= <-]. apply Z.leb_gt in Hhi. split; [reflexivity | lia].
  - intros [= <-]. apply Z.leb_gt in Hlo. split; [reflexivity | lia].
Qed.

(** The claims are built from the expiry [utcnow + granted expires_delta]. *)
Lemma to_encode_granted (data : gmap string pyval) (expires_delta : option timedelta)
      (utcnow : datetime) :
  to_encode data expires_delta utcnow
  = (let* expire := datetime_add utcnow (granted expires_delta) in
     Ok (<["exp" := VDatetime expire]> data)).
Proof.
  unfold to_encode, granted.
  destruct expires_delta as [d|]; [destruct (timedelta_bool d)|]; reflexivity.
Qed.

(** X4.  The claims that are signed keep every entry of [data] except
    [exp]: an [exp] the caller put in [data] is always replaced by the
    expiry computed from the clock, and [data] gains no other key. *)
Theorem exp_of_caller_is_overridden
        (data claims : gmap string pyval) (expires_delta : option timedelta)
        (utcnow : datetime) :
  to_encode data expires_delta utcnow = Ok claims ->
  claims !! "exp" = Some (VDatetime (utcnow + granted expires_delta)) /\
  (forall k, k <> "exp" -> claims !! k = data !! k) /\
  dom claims = {[ "exp" ]} ∪ dom data.
Proof.
  rewrite to_encode_granted.
  destruct (datetime_add utcnow (granted expires_delta)) as [expire|] eqn:Hadd;
    simpl; [|discriminate].
  intros [= <-]. destruct (datetime_add_Ok _ _ _ Hadd) as [-> _].
  split; [apply lookup_insert_eq|]. split.
  - intros k Hk. apply lookup_insert_ne. congruence.
  - apply dom_insert_L.
Qed.

Section IssuanceMore.
Context {J : JwtCodec} {S : Settings} {L : JwtLaws J}.

(** What the laws say of the token a call returned. *)
Lemma issued_token_facts (s token : string) (expires_delta : option timedelta)
      (utcnow : datetime) :
  create_access_token {[ "sub" := VStr s ]} expires_delta utcnow = Ok token ->
  datetime_min <= utcnow + granted expires_delta <= datetime_max /\
  no_space token = true /\
  (forall now, now < utcnow + granted expires_delta ->
     jwt_decode token SECRET_KEY [ALGORITHM] now
     = Ok (<["exp" := VInt (utcnow + granted expires_delta)]> {[ "sub" := VStr s ]})) /\
  (forall now, utcnow + granted expires_delta < now ->
     jwt_decode token SECRET_KEY [ALGORITHM] now
     = Raise (PyJWTError ExpiredSignatureError)).
Proof.
  unfold create_access_token. rewrite to_encode_granted.
  destruct (datetime_add utcnow (granted expires_delta)) as [expire|] eqn:Hadd;
    simpl; [|discriminate].
  destruct (datetime_add_Ok _ _ _ Hadd) as [-> Hrange]. intros Henc.
  destruct (sign_plain_claims {[ "sub" := VStr s ]}
              (utcnow + granted expires_delta) (sub_claims_plain s))
    as (token' & Henc' & Hns & Hfresh & Hexpired).
  rewrite Henc in Henc'. injection Henc' as <-. auto.
Qed.

Lemma issuance_in_range (s : string) (expires_delta : option timedelta)
      (utcnow : datetime) :
  datetime_min <= utcnow + granted expires_delta <= datetime_max ->
  exists token,
    create_access_token {[ "sub" := VStr s ]} expires_delta utcnow = Ok token.
Proof.
  intros Hrange. unfold create_access_token. rewrite to_encode_granted.
  rewrite (datetime_add_in_range _ _ Hrange). simpl.
  destruct (sign_plain_claims {[ "sub" := VStr s ]}
              (utcnow + granted expires_delta) (sub_claims_plain s))
    as (token & Henc & _).
  eauto.
Qed.

Lemma issuance_Raise (s : string) (expires_delta : option timedelta)
      (utcnow : datetime) (x : exn) :
  create_access_token {[ "sub" := VStr s ]} expires_delta utcnow = Raise x ->
  x = OverflowError.
Proof.
  unfold create_access_token. rewrite to_encode_granted.
  destruct (datetime_add utcnow (granted expires_delta)) as [r|y] eqn:Hadd; simpl.
  - destruct (datetime_add_Ok _ _ _ Hadd) as [-> _].
    destruct (sign_plain_claims {[ "sub" := VStr s ]}
                (utcnow + granted expires_delta) (sub_claims_plain s))
      as (token & Henc & _).
    congruence.
  - destruct (datetime_add_Raise _ _ _ Hadd) as [-> _]. congruence.
Qed.

(** X5.  Issuance for a subject fails exactly when the expiry is not a
    representable datetime, and then with OverflowError; in every other
    case a token is returned. *)
Theorem issuance_fails_only_out_of_range
        (s : string) (expires_delta : option timedelta) (utcnow : datetime) :
  (create_access_token {[ "sub" := VStr s ]} expires_delta utcnow
   = Raise OverflowError
   <-> ~ (datetime_min <= utcnow + granted expires_delta <= datetime_max)) /\
  ((exists token,
       create_access_token {[ "sub" := VStr s ]} expires_delta utcnow = Ok token)
   <-> datetime_min <= utcnow + granted expires_delta <= datetime_max).
Proof.
  pose proof (issuance_in_range s expires_delta utcnow) as Hin.
  assert (Hout : ~ (datetime_min <= utcnow + granted expires_delta <= datetime_max) ->
                 create_access_token {[ "sub" := VStr s ]} expires_delta utcnow
                 = Raise OverflowError).
  { intros Hrange. unfold create_access_token. rewrite to_encode_granted.
    destruct (datetime_add utcnow (granted expires_delta)) as [r|e] eqn:Hadd.
    - destruct (datetime_add_Ok _ _ _ Hadd) as [_ Hr]. contradiction.
    - destruct (datetime_add_Raise _ _ _ Hadd) as [-> _]. reflexivity. }
  split; split.
  - intros Hraise Hrange. destruct (Hin Hrange) as [token Htok]. congruence.
  - exact Hout.
  - intros [token Htok].
    destruct (issued_token_facts s token expires_delta utcnow Htok) as [Hr _].
    exact Hr.
  - exact Hin.
Qed.

(** X6.  A negative [expires_delta] is truthy and is used as it is: the
    token issued is already expired, and the gate refuses it at the
    issuance instant and at every later one. *)
Theorem negative_ttl_token_never_accepted
        (s : string) (ttl : timedelta) (utcnow now : datetime) :
  ttl < 0 -> datetime_min <= utcnow + ttl <= datetime_max -> utcnow <= now ->
  exists token,
    create_access_token {[ "sub" := VStr s ]} (Some ttl) utcnow = Ok token /\
    forall db,
      get_current_user (cookie_request ("Bearer " +:+ token)) db now
      = Raise credentials_exception.
Proof.
  intros Hneg Hrange Hnow.
  assert (Hgranted : granted (Some ttl) = ttl).
  { unfold granted, timedelta_bool.
    destruct (Z.eqb_spec ttl 0); [lia | reflexivity]. }
  rewrite <- Hgranted in Hrange.
  destruct (issuance_in_range s (Some ttl) utcnow Hrange) as [token Htok].
  exists token. split; [exact Htok|]. intros db.
  destruct (issued_token_facts s token (Some ttl) utcnow Htok)
    as (_ & Hns & _ & Hexpired).
  apply (gate_rejects_expired token db now Hns).
  apply Hexpired. rewrite Hgranted. lia.
Qed.

End IssuanceMore.

(** ** The store under registration *)

Lemma find_app_found {A : Type} (f : A -> bool) (l l' : list A) (a : A) :
  List.find f l = Some a -> List.find f (l ++ l') = Some a.
Proof.
  induction l as [|b l IH]; simpl; [discriminate|].
  destruct (f b); [auto | exact IH].
Qed.

Lemma get_user_by_email_other_appended (db : list User) (u : User) (v : pyval) :
  email_matches v u = false ->
  get_user_by_email (db ++ [u]) v = get_user_by_email db v.
Proof.
  intros Hno. unfold get_user_by_email.
  induction db as [|w db IH]; simpl; [rewrite Hno; reflexivity|].
  destruct (email_matches v w); [reflexivity | exact IH].
Qed.

Lemma authenticate_user_resolves {H : PasswordHasher}
      (db : list User) (e pw : string) (u : User) :
  authenticate_user db e pw = Some u ->
  get_user_by_email db (VStr e) = Some u /\ email u = e /\
  pwd_verify pw (password u) = true.
Proof.
  unfold authenticate_user.
  destruct (get_user_by_email db (VStr e)) as [w|] eqn:Hfind; [|discriminate].
  destruct (pwd_verify pw (password w)) eqn:Hv; [|discriminate].
  intros [= <-].
  destruct (get_user_by_email_Some db e w Hfind) as [_ Heq]. auto.
Qed.

Section Registration.
Context {H : PasswordHasher}.
Variable commit_ok : list User -> User -> bool.

Lemma create_user_Ok (db db' : list User) (name e p salt : string) (u : User) :
  create_user commit_ok db name e p salt = Ok (db', u) ->
  u = mkUser name e (pwd_hash salt p) /\ db' = (db ++ [u])%list /\
  commit_ok db u = true.
Proof.
  unfold create_user.
  destruct (commit_ok db (mkUser name e (pwd_hash salt p))) eqn:Hok;
    [|discriminate].
  intros [= <- <-]. auto.
Qed.

(** X7.  Registration never changes whom an email resolves to: every
    lookup that found a record before the insert finds the same record
    after it, every lookup of another email is unchanged, and whoever could
    authenticate before still authenticates as the same record. *)
Theorem registration_keeps_existing_users
        (db db' : list User) (name e p salt : string) (u : User) :
  create_user commit_ok db name e p salt = Ok (db', u) ->
  (forall v w, get_user_by_email db v = Some w -> get_user_by_email db' v = Some w) /\
  (forall e', e' <> e ->
     get_user_by_email db' (VStr e') = get_user_by_email db (VStr e')) /\
  (forall e' pw w, authenticate_user db e' pw = Some w ->
     authenticate_user db' e' pw = Some w).
Proof.
  intros Hcreate.
  destruct (create_user_Ok _ _ _ _ _ _ _ Hcreate) as (Hu & -> & _).
  assert (Hkeep : forall v w, get_user_by_email db v = Some w ->
                              get_user_by_email (db ++ [u]) v = Some w).
  { intros v w. apply find_app_found. }
  split; [exact Hkeep|]. split.
  - intros e' Hne. apply get_user_by_email_other_appended.
    subst u. simpl. apply String.eqb_neq. congruence.
  - intros e' pw w Hauth.
    destruct (authenticate_user_resolves db e' pw w Hauth) as (Hfind & _ & Hv).
    unfold authenticate_user. rewrite (Hkeep _ _ Hfind), Hv. reflexivity.
Qed.

(** X8.  When the table is keyed by email, registration keeps the emails
    of the store pairwise distinct. *)
Theorem registration_keeps_emails_distinct
        (db db' : list User) (name e p salt : string) (u : User) :
  (forall db u, commit_ok db u = true ->
                get_user_by_email db (VStr (email u)) = None) ->
  NoDup (map email db) ->
  create_user commit_ok db name e p salt = Ok (db', u) ->
  NoDup (map email db').
Proof.
  intros Hunique Hnodup Hcreate.
  destruct (create_user_Ok _ _ _ _ _ _ _ Hcreate) as (_ & -> & Hok).
  pose proof (Hunique db u Hok) as Hfresh.
  rewrite map_app. simpl. apply NoDup_app. split; [exact Hnodup|].
  split; [|apply NoDup_singleton].
  intros x Hx Hx'. apply list_elem_of_singleton in Hx'. subst x.
  apply list_elem_of_In, in_map_iff in Hx as (w & Heq & Hin).
  exact (proj1 (get_user_by_email_None db (email u)) Hfresh w Hin Heq).
Qed.

End Registration.

(** ** The routes of main.py *)

Lemma receive_set_cookie (jar : gmap string string) (url : string) (status : Z)
      (key value : string) (httponly : bool) :
  receive jar (RedirectResponse url status [SetCookie key value httponly]) !! key
  = Some value.
Proof. unfold receive. simpl. apply lookup_insert_eq. Qed.

Lemma get_current_user_lookup {J : JwtCodec} {S : Settings}
      (request : Request) (cookie : string) (db : list User) (now : datetime) :
  cookies request !! "access_token" = Some cookie ->
  get_current_user request db now
  = get_current_user (cookie_request cookie) db now.
Proof.
  intros Hcookie. unfold get_current_user, cookie_request. simpl.
  rewrite Hcookie, lookup_singleton_eq. reflexivity.
Qed.

Section RoutesProofs.
Context {J : JwtCodec} {H : PasswordHasher} {S : Settings}.

Lemma login_Ok (request : Request) (e pw : string) (db : list User)
      (utcnow : datetime) (response : Response) :
  main.login request e pw db utcnow = Ok response ->
  exists u token,
    authenticate_user db e pw = Some u /\
    create_access_token {[ "sub" := VStr (email u) ]} None utcnow = Ok token /\
    response = RedirectResponse "/home" 303
                 [SetCookie "access_token" ("Bearer " +:+ token) true].
Proof.
  unfold main.login.
  destruct (authenticate_user db e pw) as [u|]; [|discriminate].
  destruct (create_access_token {[ "sub" := VStr (email u) ]} None utcnow)
    as [token|] eqn:Htok; simpl; [|discriminate].
  intros [= <-]. exists u, token. auto.
Qed.

(** X11.  Logging out makes the client drop the [access_token] cookie and
    nothing else: its next request is answered Not authenticated by the
    gate and by the protected pages, whatever cookies it held, and every
    other cookie is kept.  The response passed to the route plays no
    part. *)
Theorem logout_ends_session
        (response : Response) (jar : gmap string string)
        (db : list User) (now : datetime) :
  main.logout response = RedirectResponse "/login" 303 [DeleteCookie "access_token"] /\
  get_current_user (next_request jar (main.logout response)) db now
  = Raise not_authenticated /\
  main.home_page (next_request jar (main.logout response)) db now
  = Raise not_authenticated /\
  main.detail_page (next_request jar (main.logout response)) db now
  = Raise not_authenticated /\
  (forall k, k <> "access_token" ->
             receive jar (main.logout response) !! k = jar !! k).
Proof.
  assert (Hgate : get_current_user (next_request jar (main.logout response)) db now
                  = Raise not_authenticated).
  { unfold get_current_user, next_request, receive. simpl.
    rewrite lookup_delete_eq. reflexivity. }
  split; [reflexivity|]. split; [exact Hgate|].
  split; [unfold main.home_page; rewrite Hgate; reflexivity|].
  split; [unfold main.detail_page; rewrite Hgate; reflexivity|].
  intros k Hk. unfold receive. simpl. apply lookup_delete_ne. congruence.
Qed.

Context {L : JwtLaws J}.

(** The gate on the next request of a client that logged in. *)
Lemma gate_after_login (request : Request) (e pw : string) (db : list User)
      (utcnow : datetime) (response : Response) :
  main.login request e pw db utcnow = Ok response ->
  exists u,
    authenticate_user db e pw = Some u /\
    (forall jar db' now, utcnow <= now < utcnow + 900 ->
       get_current_user (next_request jar response) db' now
       = match get_user_by_email db' (VStr (email u)) with
         | None => Raise credentials_exception
         | Some user => Ok user
         end) /\
    (forall jar db' now, utcnow + 900 < now ->
       get_current_user (next_request jar response) db' now
       = Raise credentials_exception).
Proof.
  intros Hlogin.
  destruct (login_Ok _ _ _ _ _ _ Hlogin) as (u & token & Hauth & Htok & ->).
  destruct (issued_token_facts (email u) token None utcnow Htok)
    as (_ & Hns & Hfresh & Hexpired).
  change (granted None) with 900 in *.
  exists u. split; [exact Hauth|]. split.
  - intros jar db' now Hnow.
    rewrite (get_current_user_lookup _ ("Bearer " +:+ token))
      by apply receive_set_cookie.
    apply (gate_accepts token (email u) _ db' now Hns (Hfresh now (proj2 Hnow))).
    apply sub_after_exp.
  - intros jar db' now Hnow.
    rewrite (get_current_user_lookup _ ("Bearer " +:+ token))
      by apply receive_set_cookie.
    apply (gate_rejects_expired token db' now Hns (Hexpired now Hnow)).
Qed.


(** X10.  A login lasts 15 minutes and no longer: once more than 15
    minutes have passed since the login, the cookie it set is refused by
    the gate and by the protected pages with the 401 credentials answer,
    whatever the store holds. *)
Theorem login_cookie_expires_after_15_minutes
        (request : Request) (e pw : string) (db db' : list User)
        (utcnow now : datetime) (response : Response) (jar : gmap string string) :
  main.login request e pw db utcnow = Ok response ->
  utcnow + 15 * 60 < now ->
  get_current_user (next_request jar response) db' now = Raise credentials_exception /\
  main.home_page (next_request jar response) db' now = Raise credentials_exception /\
  main.detail_page (next_request jar response) db' now = Raise credentials_exception.
Proof.
  intros Hlogin Hnow. change (15 * 60) with 900 in Hnow.
  destruct (gate_after_login _ _ _ _ _ _ Hlogin) as (u & _ & _ & Hexpired).
  pose proof (Hexpired jar db' now Hnow) as Hgate.
  split; [exact Hgate|]. split.
  - unfold main.home_page. rewrite Hgate. reflexivity.
  - unfold main.detail_page. rewrite Hgate. reflexivity.
Qed.

(** X12.  Login answers 401 Incorrect email or password exactly when the
    email is unknown or the password does not verify against the stored
    hash, with one and the same response in both cases; and it sets the
    cookie only for credentials that authenticate. *)
Theorem login_refuses_bad_credentials
        (request : Request) (e pw : string) (db : list User) (utcnow : datetime) :
  (main.login request e pw db utcnow
   = Raise (HTTPException 401 "Incorrect email or password" [])
   <-> get_user_by_email db (VStr e) = None \/
       exists u, get_user_by_email db (VStr e) = Some u /\
                 pwd_verify pw (password u) = false) /\
  (forall response,
      main.login request e pw db utcnow = Ok response ->
      exists u token,
        get_user_by_email db (VStr e) = Some u /\
        pwd_verify pw (password u) = true /\
        response = RedirectResponse "/home" 303
                     [SetCookie "access_token" ("Bearer " +:+ token) true]).
Proof.
  split.
  - unfold main.login, authenticate_user.
    destruct (get_user_by_email db (VStr e)) as [u|] eqn:Hfind.
    + destruct (pwd_verify pw (password u)) eqn:Hv.
      * split.
        -- destruct (create_access_token {[ "sub" := VStr (email u) ]} None utcnow)
             as [token|x] eqn:Htok; simpl; [discriminate|].
           rewrite (issuance_Raise _ _ _ _ Htok). discriminate.
        -- intros [|(w & [= <-] & Hw)]; [discriminate | congruence].
      * split; [intros _; right; eauto | reflexivity].
    + split; [auto | reflexivity].
  - intros response Hlogin.
    destruct (login_Ok _ _ _ _ _ _ Hlogin) as (u & token & Hauth & _ & ->).
    destruct (authenticate_user_resolves db e pw u Hauth) as (Hfind & _ & Hv).
    exists u, token. auto.
Qed.

End RoutesProofs.

(** ** From registration to a protected page *)

Section Journey.
Context {J : JwtCodec} {H : PasswordHasher} {S : Settings}.
Context {L : JwtLaws J} {LH : PasswordHasherLaws H}.
Variable commit_ok : list User -> User -> bool.
Hypothesis commit_ok_unique :
  forall db u, commit_ok db u = true -> get_user_by_email db (VStr (email u)) = None.


End Journey.

(** ** Whole seconds within microseconds *)

(** On instants and lifetimes that are whole seconds, issuance with the
    clock in microseconds is issuance with the clock in seconds. *)
Lemma timegm_whole_second (r : Z) : micro.timegm (r * micro.second) = r.
Proof. unfold micro.timegm, micro.second. apply Z.div_mul. lia. Qed.

Lemma micro_datetime_add_whole_seconds (t : datetime) (d : timedelta) :
  micro.datetime_add (t * micro.second) (d * micro.second)
  = match datetime_add t d with
    | Ok r => Ok (r * micro.second)
    | Raise e => Raise e
    end.
Proof.
  unfold micro.datetime_add, datetime_add, micro.datetime_min, micro.datetime_max,
    datetime_min, datetime_max, micro.second.
  destruct (Z.leb_spec (-62135596800) (t + d));
    destruct (Z.leb_spec (t + d) 253402300799);
    destruct (Z.leb_spec (-62135596800 * 1000000) (t * 1000000 + d * 1000000));
    destruct (Z.leb_spec (t * 1000000 + d * 1000000)
                (253402300799 * 1000000 + 999999));
    simpl; try lia; try reflexivity.
  f_equal. lia.
Qed.

Lemma micro_to_encode_whole_seconds (data : gmap string pyval)
      (expires_delta : option timedelta) (utcnow : datetime) :
  micro.to_encode data
    (option_map (fun d => d * micro.second) expires_delta) (utcnow * micro.second)
  = match to_encode data expires_delta utcnow with
    | Ok _ =>
        Ok (<["exp" := VDatetime ((utcnow + granted expires_delta) * micro.second)]>
              data)
    | Raise e => Raise e
    end.
Proof.
  rewrite to_encode_granted. unfold micro.to_encode, granted.
  assert (Hbool : forall d, timedelta_bool (d * micro.second) = timedelta_bool d).
  { intros d. unfold timedelta_bool, micro.second.
    destruct (Z.eqb_spec d 0); destruct (Z.eqb_spec (d * 1000000) 0);
      simpl; try lia; reflexivity. }
  assert (Hdefault : micro.timedelta_minutes 15 = timedelta_minutes 15 * micro.second)
    by reflexivity.
  destruct expires_delta as [d|]; simpl; [rewrite Hbool; destruct (timedelta_bool d)|];
    rewrite ?Hdefault, micro_datetime_add_whole_seconds;
    match goal with
    | |- context [datetime_add ?t ?x] =>
        destruct (datetime_add t x) as [r|] eqn:Hadd; simpl; [|reflexivity];
        destruct (datetime_add_Ok _ _ _ Hadd) as [-> _]; reflexivity
    end.
Qed.

(** ** The same statements at concrete requests *)

#[local] Existing Instance ref_codec.
#[local] Existing Instance ref_hasher.

Lemma bob_logs_in :
  main.login bare_request "b@x.com" "pw1" [bob] 1000 = Ok bob_login_response.
Proof. vm_compute. reflexivity. Qed.

Lemma gate_subject_witness :
  get_current_user (cookie_request ("Bearer " +:+ bob_token)) [bob] 1000 = Ok bob /\
  exists cookie token payload v,
    cookies (cookie_request ("Bearer " +:+ bob_token)) !! "access_token"
    = Some cookie /\
    getitem (split " " cookie) 1 = Ok token /\
    jwt_decode token SECRET_KEY [ALGORITHM] 1000 = Ok payload /\
    payload !! "sub" = Some v /\ v <> VNone /\
    get_user_by_email [bob] v = Some bob /\
    In bob [bob] /\
    (forall s, v = VStr s -> email bob = s).
Proof.
  assert (Hgate : get_current_user (cookie_request ("Bearer " +:+ bob_token))
                    [bob] 1000 = Ok bob) by (vm_compute; reflexivity).
  split; [exact Hgate|].
  exact (gate_returns_only_the_token_subject _ _ _ _ Hgate).
Defined.

Lemma no_cookie_witness :
  JwtLaws ref_codec /\
  (get_current_user bare_request [bob] 1000
   = Raise (HTTPException 401 "Not authenticated" [("WWW-Authenticate", "Bearer")])
   <-> cookies bare_request !! "access_token" = None \/
       cookies bare_request !! "access_token" = Some "").
Proof.
  split; [exact ref_codec_laws|].
  exact (not_authenticated_iff_no_cookie (L := ref_codec_laws) bare_request [bob] 1000).
Defined.

Lemma words_after_token_witness :
  no_space "Basic" = true /\ no_space bob_token = true /\
  get_current_user
    (cookie_request ("Basic" +:+ String " " (bob_token +:+ String " " "and more")))
    [bob] 1000
  = get_current_user (cookie_request ("Bearer " +:+ bob_token)) [bob] 1000.
Proof.
  split; [reflexivity|]. split; [apply no_space_pickle|].
  apply words_after_token_ignored; [reflexivity | apply no_space_pickle].
Defined.

Lemma exp_overridden_witness :
  to_encode (<["exp" := VInt 5]> {[ "sub" := VStr "b@x.com" ]}) (Some 60) 1000
  = Ok (<["exp" := VDatetime 1060]> {[ "sub" := VStr "b@x.com" ]}) /\
  ((<["exp" := VDatetime 1060]> {[ "sub" := VStr "b@x.com" ]} : gmap string pyval)
     !! "exp" = Some (VDatetime (1000 + granted (Some 60))) /\
   (forall k, k <> "exp" ->
      (<["exp" := VDatetime 1060]> {[ "sub" := VStr "b@x.com" ]} : gmap string pyval) !! k
      = (<["exp" := VInt 5]> {[ "sub" := VStr "b@x.com" ]} : gmap string pyval) !! k) /\
   dom (<["exp" := VDatetime 1060]> {[ "sub" := VStr "b@x.com" ]} : gmap string pyval)
   = {[ "exp" ]} ∪ dom (<["exp" := VInt 5]> {[ "sub" := VStr "b@x.com" ]}
                         : gmap string pyval)).
Proof.
  assert (Hclaims :
            to_encode (<["exp" := VInt 5]> {[ "sub" := VStr "b@x.com" ]}) (Some 60) 1000
            = Ok (<["exp" := VDatetime 1060]> {[ "sub" := VStr "b@x.com" ]}))
    by (vm_compute; reflexivity).
  split; [exact Hclaims|].
  exact (exp_of_caller_is_overridden _ _ _ _ Hclaims).
Defined.

Lemma issuance_range_witness :
  JwtLaws ref_codec /\
  ((create_access_token {[ "sub" := VStr "b@x.com" ]} None 1000 = Raise OverflowError
    <-> ~ (datetime_min <= 1000 + granted None <= datetime_max)) /\
   ((exists token,
        create_access_token {[ "sub" := VStr "b@x.com" ]} None 1000 = Ok token)
    <-> datetime_min <= 1000 + granted None <= datetime_max)).
Proof.
  split; [exact ref_codec_laws|].
  exact (issuance_fails_only_out_of_range (L := ref_codec_laws) "b@x.com" None 1000).
Defined.

Lemma negative_ttl_witness :
  JwtLaws ref_codec /\
  -60 < 0 /\ datetime_min <= 1000 + -60 <= datetime_max /\ 1000 <= 1000 /\
  exists token,
    create_access_token {[ "sub" := VStr "b@x.com" ]} (Some (-60)) 1000 = Ok token /\
    forall db,
      get_current_user (cookie_request ("Bearer " +:+ token)) db 1000
      = Raise credentials_exception.
Proof.
  split; [exact ref_codec_laws|]. split; [lia|].
  split; [unfold datetime_min, datetime_max; lia|]. split; [lia|].
  apply (negative_ttl_token_never_accepted (L := ref_codec_laws));
    unfold datetime_min, datetime_max; lia.
Defined.

Lemma registration_keeps_witness :
  create_user unique_email [bob] "eve" "e@x.com" "pw2" "salt"
  = Ok ([bob; mkUser "eve" "e@x.com" (ref_hash "salt" "pw2")],
        mkUser "eve" "e@x.com" (ref_hash "salt" "pw2")) /\
  get_user_by_email [bob; mkUser "eve" "e@x.com" (ref_hash "salt" "pw2")]
    (VStr "b@x.com") = Some bob /\
  authenticate_user [bob; mkUser "eve" "e@x.com" (ref_hash "salt" "pw2")]
    "b@x.com" "pw1" = Some bob.
Proof.
  assert (Hcreate :
            create_user unique_email [bob] "eve" "e@x.com" "pw2" "salt"
            = Ok ([bob; mkUser "eve" "e@x.com" (ref_hash "salt" "pw2")],
                  mkUser "eve" "e@x.com" (ref_hash "salt" "pw2")))
    by (vm_compute; reflexivity).
  split; [exact Hcreate|].
  destruct (registration_keeps_existing_users unique_email _ _ _ _ _ _ _ Hcreate)
    as (Hkeep & _ & Hauth).
  split.
  - apply Hkeep. vm_compute. reflexivity.
  - apply Hauth. vm_compute. reflexivity.
Defined.

Lemma registration_distinct_witness :
  (forall db u, unique_email db u = true ->
                get_user_by_email db (VStr (email u)) = None) /\
  NoDup (map email [bob]) /\
  create_user unique_email [bob] "eve" "e@x.com" "pw2" "salt"
  = Ok ([bob; mkUser "eve" "e@x.com" (ref_hash "salt" "pw2")],
        mkUser "eve" "e@x.com" (ref_hash "salt" "pw2")) /\
  NoDup (map email [bob; mkUser "eve" "e@x.com" (ref_hash "salt" "pw2")]).
Proof.
  assert (Hcreate :
            create_user unique_email [bob] "eve" "e@x.com" "pw2" "salt"
            = Ok ([bob; mkUser "eve" "e@x.com" (ref_hash "salt" "pw2")],
                  mkUser "eve" "e@x.com" (ref_hash "salt" "pw2")))
    by (vm_compute; reflexivity).
  assert (Hnodup : NoDup (map email [bob])) by (apply NoDup_singleton).
  split; [exact unique_email_sound|]. split; [exact Hnodup|].
  split; [exact Hcreate|].
  exact (registration_keeps_emails_distinct unique_email _ _ _ _ _ _ _
           unique_email_sound Hnodup Hcreate).
Defined.


Lemma login_expiry_witness :
  JwtLaws ref_codec /\
  main.login bare_request "b@x.com" "pw1" [bob] 1000 = Ok bob_login_response /\
  1000 + 15 * 60 < 1901 /\
  (get_current_user (next_request ∅ bob_login_response) [bob] 1901
   = Raise credentials_exception /\
   main.home_page (next_request ∅ bob_login_response) [bob] 1901
   = Raise credentials_exception /\
   main.detail_page (next_request ∅ bob_login_response) [bob] 1901
   = Raise credentials_exception).
Proof.
  split; [exact ref_codec_laws|]. split; [exact bob_logs_in|]. split; [lia|].
  apply (login_cookie_expires_after_15_minutes (L := ref_codec_laws)
           _ _ _ _ [bob] _ _ _ ∅ bob_logs_in).
  lia.
Defined.

Lemma login_refusal_witness :
  JwtLaws ref_codec /\
  main.login bare_request "b@x.com" "wrong" [bob] 1000
  = Raise (HTTPException 401 "Incorrect email or password" []) /\
  main.login bare_request "nobody@x.com" "pw1" [bob] 1000
  = Raise (HTTPException 401 "Incorrect email or password" []).
Proof.
  split; [exact ref_codec_laws|]. split.
  - apply (proj1 (login_refuses_bad_credentials (L := ref_codec_laws)
                    bare_request "b@x.com" "wrong" [bob] 1000)).
    right. exists bob. split; vm_compute; reflexivity.
  - apply (proj1 (login_refuses_bad_credentials (L := ref_codec_laws)
                    bare_request "nobody@x.com" "pw1" [bob] 1000)).
    left. vm_compute. reflexivity.
Defined.

